(** * Pacman AI game server: player registry, telemetry store, chart data

    A shallow embedding of the request handlers of [app.py].  The two
    process-wide globals ([players_data], [learning_data]) are threaded
    explicitly through the handlers; a handler returns the new store
    together with what it hands back to Flask: a JSON response, or an
    exception that nobody catches. *)

From Stdlib Require Import ZArith.
From stdpp Require Import base gmap strings list.

Local Open Scope Z_scope.

(** ** Python outcomes *)

(** The exceptions the handlers can raise. *)
Inductive exn : Type :=
| KeyError (key : string)       (* d[key] on a dict without that key *)
| ValueError                    (* matplotlib: x and y differ in length *)
| IndexError                    (* l[-1] on an empty list *)
| OverflowError                 (* a result too large for a float *)
| ZeroDivisionError.            (* a zero divisor *)

Inductive result (A : Type) : Type :=
| Ok (a : A)
| Raise (e : exn).
Arguments Ok {A} a.
Arguments Raise {A} e.

(** Statements run in sequence until one raises: [x ← r; k]. *)
#[global] Instance result_ret : MRet result := λ A a, Ok a.
#[global] Instance result_bind : MBind result := λ A B k r,
  match r with
  | Ok a => k a
  | Raise e => Raise e
  end.

(** What [jsonify] sends back: the keys ['status'] and ['message'] of the
    body, the image under ['plot'] or ['plot_data'] when there is one, and
    the HTTP status code (200 unless the handler gives another). *)
Record response (P : Type) : Type := Response {
  status : string;
  message : option string;
  plot : option P;
  code : Z
}.
Arguments Response {P} _ _ _ _.
Arguments status {P} _.
Arguments message {P} _.
Arguments plot {P} _.
Arguments code {P} _.

Definition jsonify_status {P} (s : string) : response P :=
  Response s None None 200.
Definition jsonify_message {P} (s m : string) (c : Z) : response P :=
  Response s (Some m) None c.
Definition jsonify_plot {P} (s : string) (p : P) : response P :=
  Response s None (Some p) 200.

(** ** Player registry *)

Module Registry.

Record player : Type := Player {
  id : Z;
  name : string;
  class : string;
  registered_on : string;
  last_login : string
}.

Definition set_id (n : Z) (p : player) : player :=
  Player n (name p) (class p) (registered_on p) (last_login p).

Definition set_last_login (t : string) (p : player) : player :=
  Player (id p) (name p) (class p) (registered_on p) t.

(** [player['name'] == player_name and player['class'] == player_class] *)
Definition same_player (player_name player_class : string) (p : player) : bool :=
  bool_decide (name p = player_name) && bool_decide (class p = player_class).

(** The scan of [register_player]: the first record that matches gets the
    new [last_login] and the loop breaks; [None] is [player_exists] left
    [False]. *)
Fixpoint login_existing (player_name player_class current_time : string)
    (players : list player) : option (list player) :=
  match players with
  | [] => None
  | p :: rest =>
      if same_player player_name player_class p
      then Some (set_last_login current_time p :: rest)
      else (p ::.) <$> login_existing player_name player_class current_time rest
  end.

(** [register_player]: [data] is the JSON object of the request, its
    fields strings; [current_time] is the formatted [datetime.now()]. *)
Definition register_player (data : gmap string string) (current_time : string)
    (players_data : list player) : list player * response unit :=
  let player_name := default "Unknown" (data !! "name") in
  let player_class := default "Unknown" (data !! "class") in
  match login_existing player_name player_class current_time players_data with
  | Some players' => (players', jsonify_status "success")
  | None =>
      (players_data ++
         [Player (Z.of_nat (length players_data) + 1) player_name player_class
                 current_time current_time],
       jsonify_status "success")
  end.

(** [for j in range(i, len(players_data)): players_data[j]['id'] = j + 1] *)
Definition reindex_from (i : nat) (players : list player) : list player :=
  foldl (λ ps j, alter (set_id (Z.of_nat j + 1)) j ps) players
        (seq i (length players - i)).

(** [delete_player]: the first record whose id is [player_id] is removed
    and the records from its position on are renumbered. *)
Definition delete_player (player_id : Z) (players_data : list player)
    : list player * response unit :=
  match list_find (λ p, id p = player_id) players_data with
  | Some (i, _) =>
      (reindex_from i (delete i players_data),
       jsonify_message "success" "Player deleted successfully" 200)
  | None =>
      (players_data, jsonify_message "error" "Player not found" 404)
  end.

(** The requests that change the registry, and a run of them. *)
Inductive request : Type :=
| RegisterPlayer (data : gmap string string) (current_time : string)
| DeletePlayer (player_id : Z).

Definition handle (players_data : list player) (r : request) : list player :=
  match r with
  | RegisterPlayer data current_time =>
      (register_player data current_time players_data).1
  | DeletePlayer player_id => (delete_player player_id players_data).1
  end.

Definition run (rs : list request) : list player := foldl handle [] rs.

(** The invariant of the data model. *)
Definition pair_of (p : player) : string * string := (name p, class p).

Definition unique_pairs (players : list player) : Prop :=
  NoDup (pair_of <$> players).

Definition dense_ids (players : list player) : Prop :=
  id <$> players = (λ k, Z.of_nat k) <$> seq 1 (length players).

End Registry.

(** ** Charts *)

(** One [plot(x, y, label=...)] call as the renderer receives it.  The
    encoding of the figure as a PNG and then base64 is left abstract: a
    chart is the list of the lines drawn on it. *)
Record line (X Y : Type) : Type := Line {
  xdata : list X;
  ydata : list Y;
  label : string
}.
Arguments Line {X Y} _ _ _.
Arguments xdata {X Y} _.
Arguments ydata {X Y} _.
Arguments label {X Y} _.

(** matplotlib refuses to draw [x] against [y] when their lengths differ
    (ValueError: x and y must have same first dimension). *)
Definition plt_plot {X Y} (x : list X) (y : list Y) (lbl : string)
    : result (line X Y) :=
  if bool_decide (length x = length y) then Ok (Line x y lbl)
  else Raise ValueError.

(** [not l] for a list. *)
Definition is_empty {X} (l : list X) : bool :=
  match l with
  | [] => true
  | _ :: _ => false
  end.

(** ** Telemetry store *)

Module Telemetry.
Section Store.
(** The values the client reports; the server only stores them and hands
    them to the renderer. *)
Context {V : Type}.

Record learning_data : Type := LearningData {
  generations : list V;
  fitness_scores : list V;
  dots_eaten : list V;
  scores : list V
}.

Definition empty_store : learning_data := LearningData [] [] [] [].

(** [learning_data[k].append(v)] for each of the four keys. *)
Definition append_generation (v : V) (ld : learning_data) : learning_data :=
  LearningData (generations ld ++ [v]) (fitness_scores ld) (dots_eaten ld) (scores ld).
Definition append_fitness (v : V) (ld : learning_data) : learning_data :=
  LearningData (generations ld) (fitness_scores ld ++ [v]) (dots_eaten ld) (scores ld).
Definition append_dots_eaten (v : V) (ld : learning_data) : learning_data :=
  LearningData (generations ld) (fitness_scores ld) (dots_eaten ld ++ [v]) (scores ld).
Definition append_score (v : V) (ld : learning_data) : learning_data :=
  LearningData (generations ld) (fitness_scores ld) (dots_eaten ld) (scores ld ++ [v]).

(** [data[key]] *)
Definition getitem (data : gmap string V) (key : string) : result V :=
  match data !! key with
  | Some v => Ok v
  | None => Raise (KeyError key)
  end.

(** [learning_data[...].append(data[key])]: the lookup comes first, so a
    missing key raises before this append, and after the earlier ones. *)
Definition append_field (key : string) (app : V → learning_data → learning_data)
    (data : gmap string V) (st : learning_data * result unit)
    : learning_data * result unit :=
  match st.2 with
  | Raise e => st
  | Ok _ =>
      match getitem data key with
      | Ok v => (app v st.1, Ok ())
      | Raise e => (st.1, Raise e)
      end
  end.

(** [save_generation_data].  [playerName] and [playerClass] are read with
    [data.get(..., 'Unknown')] and only printed. *)
Definition save_generation_data (data : gmap string V) (ld : learning_data)
    : learning_data * result (response unit) :=
  let st := append_field "generation" append_generation data (ld, Ok ()) in
  let st := append_field "fitness" append_fitness data st in
  let st := append_field "dots_eaten" append_dots_eaten data st in
  let st := append_field "score" append_score data st in
  (st.1, _ ← st.2; Ok (jsonify_status "success")).

(** [get_learning_curve] *)
Definition get_learning_curve (ld : learning_data)
    : result (response (list (line V V))) :=
  if is_empty (generations ld) then
    Ok (jsonify_message "error" "No learning data available yet" 200)
  else
    let min_length :=
      Nat.min (length (generations ld))
        (Nat.min (length (fitness_scores ld))
           (Nat.min (length (dots_eaten ld)) (length (scores ld)))) in
    let generations := take min_length (generations ld) in
    let fitness_scores := take min_length (fitness_scores ld) in
    let dots_eaten := take min_length (dots_eaten ld) in
    let scores := take min_length (scores ld) in
    if bool_decide (min_length = 0%nat) then
      Ok (jsonify_message "error" "Not enough learning data collected yet" 200)
    else
      l1 ← plt_plot generations fitness_scores "Fitness";
      l2 ← plt_plot generations dots_eaten "Dots Eaten";
      l3 ← plt_plot generations scores "Game Score";
      Ok (jsonify_plot "success" [l1; l2; l3]).

(** *** The learning curve as the specification words it *)

Definition min_length (ld : learning_data) : nat :=
  Nat.min (length (generations ld))
    (Nat.min (length (fitness_scores ld))
       (Nat.min (length (dots_eaten ld)) (length (scores ld)))).

(** The chart of the first [m] elements of the four series. *)
Definition curve_of_first (m : nat) (ld : learning_data)
    : list (line V V) :=
  [Line (take m (generations ld)) (take m (fitness_scores ld)) "Fitness";
   Line (take m (generations ld)) (take m (dots_eaten ld)) "Dots Eaten";
   Line (take m (generations ld)) (take m (scores ld)) "Game Score"].

(** The learning curve as the specification words it: an error exactly
    when there are no generations, the truncated chart otherwise. *)
Definition learning_curve_as_specified (ld : learning_data) : Prop :=
  (generations ld = [] →
   ∃ msg, get_learning_curve ld = Ok (jsonify_message "error" msg 200)) ∧
  (generations ld ≠ [] →
   get_learning_curve ld =
     Ok (jsonify_plot "success" (curve_of_first (min_length ld) ld))).

End Store.
Arguments learning_data : clear implicits.
End Telemetry.

(** ** Reward plot *)

(** The arithmetic the handler needs from the numbers of the request
    (Python ints and floats): [sum] starts from the int [0] and adds,
    [/] divides by an int count, [!=] compares with an int and [append]
    stores an int among them.  Adding an int to a float and dividing can
    raise (OverflowError), and what [/] returns is a float, of a type of
    its own here. *)
Class PyNum (num : Type) : Type := {
  num_quotient : Type;
  num_of_int : Z → num;
  num_add : num → num → result num;
  num_truediv : num → Z → result num_quotient;
  num_ne_int : num → Z → bool
}.

(** Requests whose numbers are all JSON integers.  Python ints are
    unbounded and add exactly.  [a / b] on ints is the float nearest to
    the exact quotient; it is kept as the division it rounds, its digits
    are not computed.  The division raises when that float would be
    [2 ** 1024] or more, which is from [2 ** 1024 - 2 ** 970] on. *)
Record int_quotient : Type := IntQuotient {
  dividend : Z;
  divisor : Z
}.

Definition float_overflow : Z := Eval vm_compute in 2 ^ 1024 - 2 ^ 970.

Definition int_truediv (a b : Z) : result int_quotient :=
  if b =? 0 then Raise ZeroDivisionError
  else if float_overflow * Z.abs b <=? Z.abs a then Raise OverflowError
  else Ok (IntQuotient a b).

#[global] Instance int_num : PyNum Z := {|
  num_quotient := int_quotient;
  num_of_int := λ n, n;
  num_add := λ a b, Ok (a + b);
  num_truediv := int_truediv;
  num_ne_int := λ a n, negb (a =? n)
|}.

Module Plot.
Section Handler.
Context {num : Type} `{HNum : PyNum num}.

(** [l[::k]] for a step [k >= 1]: the elements at positions 0, k, 2k, ...
    ([wait] counts the elements still to skip). *)
Fixpoint every (k wait : nat) (l : list num) : list num :=
  match l with
  | [] => []
  | x :: rest =>
      match wait with
      | O => x :: every k (k - 1) rest
      | S w => every k w rest
      end
  end.

Definition slice_step (k : nat) (l : list num) : list num := every k 0 l.

(** [l[a:b]] for indices [0 <= a] and [0 <= b]. *)
Definition slice (a b : Z) (l : list num) : list num :=
  take (Z.to_nat b - Z.to_nat a) (drop (Z.to_nat a) l).

(** [l[-1]] *)
Definition getlast (l : list num) : result num :=
  match last l with
  | Some x => Ok x
  | None => Raise IndexError
  end.

(** [sum(l)]: the elements are added to [0] one after the other. *)
Fixpoint sum_from (acc : num) (l : list num) : result num :=
  match l with
  | [] => Ok acc
  | x :: rest => acc' ← num_add acc x; sum_from acc' rest
  end.

Definition py_sum (l : list num) : result num := sum_from (num_of_int 0) l.

(** A loop that appends [f i] to a list for each [i] of [l], and stops at
    the first [f i] that raises. *)
Fixpoint collect {A B} (f : A → result B) (l : list A) : result (list B) :=
  match l with
  | [] => Ok []
  | i :: rest => y ← f i; ys ← collect f rest; Ok (y :: ys)
  end.

Record series : Type := Series {
  episodes_of : list num;
  rewards_of : list num;
  states_of : list num
}.

(** The block under [if min_length > 500]. *)
Definition downsample (min_length : nat) (s : series) : result series :=
  if bool_decide (500 < min_length)%nat then
    let sample_rate := Nat.max 1 (min_length / 500) in
    let episodes := slice_step sample_rate (episodes_of s) in
    let rewards := slice_step sample_rate (rewards_of s) in
    let states := slice_step sample_rate (states_of s) in
    e ← getlast episodes;
    if num_ne_int e (Z.of_nat min_length) then
      r ← getlast rewards;
      st ← getlast states;
      Ok (Series (episodes ++ [num_of_int (Z.of_nat min_length)])
                 (rewards ++ [r]) (states ++ [st]))
    else Ok (Series episodes rewards states)
  else Ok s.

Definition window_size : Z := 5.

(** [start_idx] and [end_idx] of the moving-average loop at index [i]. *)
Definition start_idx (i : nat) : Z :=
  Z.max 0 (Z.of_nat i - window_size `div` 2).

Definition end_idx (rewards : list num) (i : nat) : Z :=
  Z.min (Z.of_nat (length rewards)) (Z.of_nat i + window_size `div` 2 + 1).

(** The body of the moving-average loop at index [i]:
    [sum(rewards[start_idx:end_idx]) / (end_idx - start_idx)]. *)
Definition average_at (rewards : list num) (i : nat) : result num_quotient :=
  total ← py_sum (slice (start_idx i) (end_idx rewards i) rewards);
  num_truediv total (end_idx rewards i - start_idx i).

(** [for i in range(len(rewards)): moving_avg.append(...)] *)
Definition moving_average (rewards : list num) : result (list num_quotient) :=
  collect (average_at rewards) (seq 0 (length rewards)).

(** What reaches the renderer: the three arrays after the sampling block,
    and the moving average of the rewards. *)
Definition prepare (episodes rewards states : list num)
    : result (series * list num_quotient) :=
  let min_length :=
    Nat.min (length episodes) (Nat.min (length rewards) (length states)) in
  s ← downsample min_length (Series episodes rewards states);
  moving_avg ← moving_average (rewards_of s);
  Ok (s, moving_avg).

(** The three lines of the figure: rewards and their moving average on
    the left axis, states on the right axis. *)
Record chart : Type := Chart {
  rewards_line : line num num;
  average_line : line num num_quotient;
  states_line : line num num
}.

(** [generate_learning_plot]: [data] is the JSON object of the request,
    its fields arrays of numbers. *)
Definition generate_learning_plot (data : gmap string (list num))
    : result (response chart) :=
  if bool_decide (size data = 0%nat) then
    Ok (jsonify_message "error" "No data provided" 200)
  else
    let episodes := default [] (data !! "episodes") in
    let rewards := default [] (data !! "rewards") in
    let states := default [] (data !! "states") in
    if is_empty episodes || is_empty rewards || is_empty states then
      Ok (jsonify_message "error" "Missing required data" 200)
    else
      let min_length :=
        Nat.min (length episodes) (Nat.min (length rewards) (length states)) in
      if bool_decide (min_length = 0%nat) then
        Ok (jsonify_message "error" "Empty data arrays" 200)
      else
        '(s, moving_avg) ← prepare episodes rewards states;
        l1 ← plt_plot (episodes_of s) (rewards_of s) "Rewards";
        l2 ← plt_plot (episodes_of s) moving_avg "5-Episode Moving Average";
        l3 ← plt_plot (episodes_of s) (states_of s) "States Learned";
        Ok (jsonify_plot "success" (Chart l1 l2 l3)).

(** *** The chart as the specification words it *)

(** The elements of [l] whose position is within [window_size // 2] of
    [i]: the centred window, cut off at both ends of the list. *)
Definition centered_window (l : list num) (i : nat) : list num :=
  (filter (λ jx, Z.abs (Z.of_nat jx.1 - Z.of_nat i) ≤ window_size `div` 2)
          (imap (λ j x, (j, x)) l)).*2.

(** [sum(l) / len(l)] *)
Definition mean (l : list num) : result num_quotient :=
  total ← py_sum l;
  num_truediv total (Z.of_nat (length l)).

(** The three arrays cut to their common minimum length. *)
Definition truncate (episodes rewards states : list num) : series :=
  let min_length :=
    Nat.min (length episodes) (Nat.min (length rewards) (length states)) in
  Series (take min_length episodes) (take min_length rewards)
         (take min_length states).

End Handler.
End Plot.

(** ** Runs of generation reports *)

Module Reports.
Section Run.
Context {V : Type}.
Import Telemetry.

(** The store after a report; it keeps what was appended before a
    [KeyError]. *)
Definition handle (ld : learning_data V) (data : gmap string V)
    : learning_data V :=
  (save_generation_data data ld).1.

Definition run (reports : list (gmap string V)) : learning_data V :=
  foldl handle empty_store reports.

(** The four fields in the order the handler reads them, and the lengths
    of the series they go to. *)
Definition fields : list string :=
  ["generation"; "fitness"; "dots_eaten"; "score"].

Definition lengths (ld : learning_data V) : list nat :=
  [length (generations ld); length (fitness_scores ld);
   length (dots_eaten ld); length (scores ld)].

Definition complete (data : gmap string V) : Prop :=
  ∀ key, key ∈ fields → is_Some (data !! key).

End Run.
End Reports.

(** ** Spreadsheet export *)

Module Excel.
Import Registry.

Inductive cell : Type :=
| CInt (n : Z)
| CStr (s : string).

(** The worksheet as [xlsxwriter] is asked to write it: the header row,
    the width set for each column, and the rows under the header. *)
Record sheet : Type := Sheet {
  header : list string;
  widths : list Z;
  body : list (list cell)
}.

(** The keys of a player record in the order [register_player] writes
    them, which is the column order of the [DataFrame]. *)
Definition columns : list string :=
  ["id"; "name"; "class"; "registered_on"; "last_login"].

(** [df.rename(columns={...})] *)
Definition renames : gmap string string :=
  {[ "id" := "SN"; "name" := "Name"; "class" := "Class";
     "registered_on" := "Registration Time";
     "last_login" := "Last Login Time" ]}.

Definition rename (column : string) : string :=
  default column (renames !! column).

(** One row of the frame: the values of a record, column by column. *)
Definition row_of (p : player) : list cell :=
  [CInt (id p); CStr (name p); CStr (class p); CStr (registered_on p);
   CStr (last_login p)].

(** ['Time' in value] *)
Definition contains (sub s : string) : bool :=
  match String.index 0 sub s with
  | Some _ => true
  | None => false
  end.

Definition column_width (value : string) : Z :=
  if contains "Time" value then 25 else 18.

(** [str.lower()] on the ASCII text that [strftime] produces. *)
Definition is_upper (c : Ascii.ascii) : bool :=
  (65 <=? Ascii.nat_of_ascii c)%nat && (Ascii.nat_of_ascii c <=? 90)%nat.

Definition lower_char (c : Ascii.ascii) : Ascii.ascii :=
  if is_upper c then Ascii.ascii_of_nat (Ascii.nat_of_ascii c + 32) else c.

Fixpoint lower (s : string) : string :=
  match s with
  | EmptyString => EmptyString
  | String c rest => String (lower_char c) (lower rest)
  end.

Fixpoint has_upper (s : string) : bool :=
  match s with
  | EmptyString => false
  | String c rest => is_upper c || has_upper rest
  end.

(** [export_players_excel]: [stamp] is
    [datetime.now().strftime('%Y%m%d_%I%M%S%p')].  The answer is a JSON
    body, or the file sent with its download name. *)
Definition export_players_excel (stamp : string) (players_data : list player)
    : response unit + string * sheet :=
  if is_empty players_data then
    inl (jsonify_message "error" "No player data available" 200)
  else
    let df_columns := rename <$> columns in
    let time_part := lower stamp in
    let filename := "pacman_players_" +:+ time_part +:+ ".xlsx" in
    inr (filename,
         Sheet df_columns (column_width <$> df_columns)
               (row_of <$> players_data)).

(** The first column of the rows. *)
Definition first_column (rows : list (list cell)) : list (option cell) :=
  (λ row : list cell, row !! 0%nat) <$> rows.

End Excel.

(** ** Game page *)

Module Game.

(** The [cache_busters] dict of [game]; [t1] .. [t5] are the five readings
    of [int(time.time())], taken in this order. *)
Definition cache_busters (t1 t2 t3 t4 t5 : Z) : gmap string Z :=
  {[ "style" := t1 + 1; "constants" := t2 + 2; "manual_game" := t3 + 3;
     "ai_game" := t4 + 4; "main" := t5 + 5 ]}.

End Game.

(** ** Sample requests *)

Module Samples.

Definition ints (first count : nat) : list Z :=
  (λ k, Z.of_nat k) <$> seq first count.

(** Arrays of different lengths: three episodes, two rewards. *)
Definition uneven : gmap string (list Z) :=
  {[ "episodes" := ints 1 3; "rewards" := ints 10 2; "states" := ints 20 3 ]}.

(** A thousand episodes, numbered from 1, each with its own reward
    (1001..2000) and state count (2001..3000). *)
Definition thousand : gmap string (list Z) :=
  {[ "episodes" := ints 1 1000; "rewards" := ints 1001 1000;
     "states" := ints 2001 1000 ]}.

(** A generation report without the fitness field. *)
Definition no_fitness : gmap string Z :=
  {[ "generation" := 1; "dots_eaten" := 3; "score" := 10 ]}.

(** A generation report with the generation field only. *)
Definition generation_only : gmap string Z := {[ "generation" := 1 ]}.

(** Series of lengths 5, 4, 5 and 3. *)
Definition ragged : Telemetry.learning_data Z :=
  Telemetry.LearningData [1; 2; 3; 4; 5] [10; 20; 30; 40]
                         [7; 7; 8; 8; 9] [100; 200; 300].

End Samples.

Module MoreSamples.
Import Samples.

(** Three episodes with their rewards and state counts. *)
Definition even_request : gmap string (list Z) :=
  {[ "episodes" := ints 1 3; "rewards" := ints 10 3; "states" := ints 20 3 ]}.

End MoreSamples.

(** * Properties *)

(** ** Registry: the scan, the renumbering and the invariant *)

Section RegistryFacts.
Import Registry.

Lemma same_player_true n c p :
  same_player n c p = true ↔ name p = n ∧ class p = c.
Proof.
  unfold same_player. rewrite andb_true_iff, !bool_decide_eq_true. done.
Qed.

Lemma same_player_false n c p :
  same_player n c p = false ↔ ¬ (name p = n ∧ class p = c).
Proof.
  rewrite <- same_player_true. destruct (same_player n c p); naive_solver.
Qed.

Lemma login_existing_None n c t ps :
  login_existing n c t ps = None ↔ ∀ p, p ∈ ps → same_player n c p = false.
Proof.
  induction ps as [|q ps IH]; simpl.
  - split; [|done]. intros _ p Hp. by apply elem_of_nil in Hp.
  - destruct (same_player n c q) eqn:Hq.
    + split; [done|]. intros Hall. specialize (Hall q (list_elem_of_here _ _)).
      congruence.
    + rewrite fmap_None, IH. split.
      * intros Hall p [->|Hp]%elem_of_cons; auto.
      * intros Hall p Hp. apply Hall. by right.
Qed.

Lemma login_existing_Some n c t ps ps' :
  login_existing n c t ps = Some ps' →
  ∃ i p, ps !! i = Some p ∧ same_player n c p = true ∧
         (∀ j q, ps !! j = Some q → (j < i)%nat → same_player n c q = false) ∧
         ps' = <[i := set_last_login t p]> ps.
Proof.
  revert ps'. induction ps as [|q ps IH]; intros ps'; simpl; [done|].
  destruct (same_player n c q) eqn:Hq.
  - intros [= <-]. exists 0%nat, q. repeat split; auto. intros j r _ Hj. lia.
  - intros (tl & Htl & ->)%fmap_Some.
    destruct (IH _ Htl) as (i & p & Hi & Hp & Hfirst & ->).
    exists (S i), p. repeat split; auto.
    intros [|j] r Hj Hlt; simpl in Hj.
    + by inversion Hj; subst.
    + apply (Hfirst j); [done|lia].
Qed.

Lemma dense_ids_lookup (ps : list player) :
  dense_ids ps ↔ ∀ i p, ps !! i = Some p → id p = Z.of_nat i + 1.
Proof.
  unfold dense_ids. split.
  - intros Heq i p Hi.
    assert (Hlt : (i < length ps)%nat) by (by eapply lookup_lt_Some).
    assert (Hid : (id <$> ps) !! i = Some (id p))
      by (by rewrite list_lookup_fmap, Hi).
    rewrite Heq, list_lookup_fmap, lookup_seq_lt in Hid by done.
    simpl in Hid. injection Hid. lia.
  - intros Hall. apply list_eq. intros i. rewrite !list_lookup_fmap.
    destruct (ps !! i) as [p|] eqn:Hi; simpl.
    + rewrite lookup_seq_lt by (by eapply lookup_lt_Some). simpl.
      f_equal. rewrite (Hall i p Hi). lia.
    + apply lookup_ge_None in Hi. rewrite lookup_seq_ge; done.
Qed.

Lemma dense_ids_nil : dense_ids [].
Proof. reflexivity. Qed.

Lemma lookup_reindex_steps (ps : list player) (i n j : nat) :
  foldl (λ (ps : list player) j, alter (set_id (Z.of_nat j + 1)) j ps) ps
        (seq i n) !! j =
  if decide (i ≤ j < i + n)%nat then set_id (Z.of_nat j + 1) <$> ps !! j
  else ps !! j.
Proof.
  induction n as [|n IH].
  - simpl. case_decide; [lia|done].
  - rewrite seq_S, foldl_app. simpl. rewrite list_lookup_alter.
    destruct (decide ((i + n)%nat = j)) as [<-|Hne].
    + rewrite IH. rewrite decide_False by lia. rewrite decide_True by lia. done.
    + rewrite IH. repeat case_decide; try lia; done.
Qed.

Lemma lookup_reindex_from (i : nat) (ps : list player) (j : nat) :
  reindex_from i ps !! j =
  if decide (i ≤ j)%nat then set_id (Z.of_nat j + 1) <$> ps !! j else ps !! j.
Proof.
  unfold reindex_from. rewrite lookup_reindex_steps.
  destruct (decide (i ≤ j)%nat) as [Hle|Hnle].
  - destruct (decide (j < length ps)%nat) as [Hlt|Hge].
    + by rewrite decide_True by lia.
    + rewrite decide_False by lia. rewrite (proj2 (lookup_ge_None ps j)) by lia.
      done.
  - by rewrite decide_False by lia.
Qed.

Lemma length_reindex_from i ps : length (reindex_from i ps) = length ps.
Proof.
  unfold reindex_from. generalize (seq i (length ps - i)). intros js.
  revert ps. induction js as [|j js IH]; intros ps; simpl; [done|].
  by rewrite IH, length_alter.
Qed.

Lemma pair_of_reindex_from i ps : pair_of <$> reindex_from i ps = pair_of <$> ps.
Proof.
  apply list_eq. intros j. rewrite !list_lookup_fmap, lookup_reindex_from.
  case_decide; [|done]. by destruct (ps !! j).
Qed.

Lemma dense_ids_reindex_delete i ps :
  dense_ids ps → dense_ids (reindex_from i (delete i ps)).
Proof.
  rewrite !dense_ids_lookup. intros Hd j p. rewrite lookup_reindex_from.
  case_decide as Hij.
  - intros (q & _ & ->)%fmap_Some. done.
  - rewrite list_lookup_delete_lt by lia. apply Hd.
Qed.

Lemma unique_pairs_reindex_delete i ps :
  unique_pairs ps → unique_pairs (reindex_from i (delete i ps)).
Proof.
  unfold unique_pairs. rewrite pair_of_reindex_from, list_fmap_delete.
  intros Hnd. exact (sublist_NoDup _ _ Hnd (sublist_delete _ _)).
Qed.

End RegistryFacts.

Section RegistryClaims.
Import Registry.

Lemma register_player_status data t ps :
  (register_player data t ps).2 = jsonify_status "success".
Proof.
  unfold register_player.
  by destruct (login_existing _ _ t ps).
Qed.

Lemma unique_pairs_spec (ps : list player) :
  unique_pairs ps ↔
  ∀ i j p q, ps !! i = Some p → ps !! j = Some q → pair_of p = pair_of q → i = j.
Proof.
  unfold unique_pairs. rewrite NoDup_alt. split.
  - intros Hnd i j p q Hi Hj Hpq.
    apply (Hnd i j (pair_of p)); rewrite list_lookup_fmap.
    + by rewrite Hi.
    + by rewrite Hj, Hpq.
  - intros Hu i j x. rewrite !list_lookup_fmap.
    intros (p & Hi & ->)%fmap_Some (q & Hj & Hpq)%fmap_Some. eauto.
Qed.

Lemma register_player_invariant data t ps :
  unique_pairs ps → dense_ids ps →
  unique_pairs (register_player data t ps).1 ∧
  dense_ids (register_player data t ps).1.
Proof.
  intros Hu Hd. unfold register_player.
  set (n := default "Unknown" (data !! "name")).
  set (c := default "Unknown" (data !! "class")).
  destruct (login_existing n c t ps) as [ps'|] eqn:Hscan; simpl.
  - apply login_existing_Some in Hscan as (i & p & Hi & _ & _ & ->).
    unfold unique_pairs, dense_ids.
    rewrite !list_fmap_insert, length_insert. simpl.
    rewrite (list_insert_id (pair_of <$> ps)), (list_insert_id (id <$> ps));
      [done| |]; by rewrite list_lookup_fmap, Hi.
  - split.
    + unfold unique_pairs. rewrite fmap_app. apply NoDup_app.
      split; [done|]. split; [|apply NoDup_singleton].
      intros x (p & -> & Hp)%list_elem_of_fmap Hin.
      apply list_elem_of_singleton in Hin.
      rewrite login_existing_None in Hscan.
      specialize (Hscan p Hp). apply same_player_false in Hscan.
      apply Hscan. unfold pair_of in Hin. by inversion Hin.
    + unfold dense_ids in *. rewrite fmap_app, length_app, Hd. simpl.
      rewrite Nat.add_1_r, seq_S, fmap_app. simpl. do 3 f_equal. lia.
Qed.

Lemma delete_player_invariant k ps :
  unique_pairs ps → dense_ids ps →
  unique_pairs (delete_player k ps).1 ∧ dense_ids (delete_player k ps).1.
Proof.
  intros Hu Hd. unfold delete_player.
  destruct (list_find _ ps) as [[i p]|]; simpl; [|done].
  split; [by apply unique_pairs_reindex_delete|by apply dense_ids_reindex_delete].
Qed.

Lemma handle_invariant ps r :
  unique_pairs ps ∧ dense_ids ps →
  unique_pairs (handle ps r) ∧ dense_ids (handle ps r).
Proof.
  intros [Hu Hd]. destruct r as [data t|k]; simpl.
  - by apply register_player_invariant.
  - by apply delete_player_invariant.
Qed.

(** C4: whatever register and delete requests the server has handled
    since it started with no players, no two records share a (name, class)
    pair and the ids, in stored order, are 1, 2, ..., N. *)
Theorem registry_invariant (rs : list request) :
  unique_pairs (run rs) ∧
  id <$> run rs = (λ k, Z.of_nat k) <$> seq 1 (length (run rs)).
Proof.
  unfold run. change (unique_pairs (foldl handle [] rs) ∧
                      dense_ids (foldl handle [] rs)).
  induction rs as [|r rs IH] using rev_ind.
  - split; [apply NoDup_nil_2|apply dense_ids_nil].
  - rewrite foldl_app. simpl. by apply handle_invariant.
Qed.

(** C5: registering a (name, class) pair that is already in the registry
    keeps the number of records, and changes one record only, the one with
    that pair (the first one, would the registry hold several): its
    last_login becomes the current time, its id, name, class and
    registered_on stay; the response is success.  Registering a pair that
    is not there appends a record whose id is the record count plus one. *)
Theorem register_player_upsert (data : gmap string string) (t : string)
    (ps : list player) (n c : string) :
  data !! "name" = Some n → data !! "class" = Some c →
  status (register_player data t ps).2 = "success" ∧
  ((∃ p, p ∈ ps ∧ name p = n ∧ class p = c) →
   length (register_player data t ps).1 = length ps ∧
   ∃ i p p',
     ps !! i = Some p ∧ name p = n ∧ class p = c ∧
     (register_player data t ps).1 = <[i := p']> ps ∧
     id p' = id p ∧ name p' = name p ∧ class p' = class p ∧
     registered_on p' = registered_on p ∧ last_login p' = t ∧
     (unique_pairs ps →
      ∀ j q, ps !! j = Some q → name q = n → class q = c → j = i)) ∧
  ((∀ p, p ∈ ps → ¬ (name p = n ∧ class p = c)) →
   (register_player data t ps).1 =
     ps ++ [Player (Z.of_nat (length ps) + 1) n c t t]).
Proof.
  intros Hn Hc. split; [by rewrite register_player_status|].
  unfold register_player. rewrite Hn, Hc. simpl.
  destruct (login_existing n c t ps) as [ps'|] eqn:Hscan; simpl.
  - apply login_existing_Some in Hscan as (i & p & Hi & Hp & _ & ->).
    apply same_player_true in Hp as [Hpn Hpc]. split.
    + intros _. split; [apply length_insert|].
      exists i, p, (set_last_login t p). repeat split; auto.
      intros Hu j q Hj Hqn Hqc.
      apply (proj1 (unique_pairs_spec ps) Hu j i q p Hj Hi).
      unfold pair_of. congruence.
    + intros Hnone. exfalso. apply (Hnone p); [|done].
      apply list_elem_of_lookup. eauto.
  - rewrite login_existing_None in Hscan. split; [|done].
    intros (p & Hp & Hpn & Hpc). specialize (Hscan p Hp).
    apply same_player_false in Hscan. tauto.
Qed.

Lemma register_player_upsert_witness :
  let alice := Player 1 "alice" "5A" "t0" "t0" in
  let data : gmap string string := <["name" := "alice"]> {["class" := "5A"]} in
  status (register_player data "t1" [alice]).2 = "success" ∧
  length (register_player data "t1" [alice]).1 = length [alice].
Proof.
  intros alice data.
  destruct (register_player_upsert data "t1" [alice] "alice" "5A")
    as (Hst & Hexists & _); [reflexivity|reflexivity|].
  split; [exact Hst|]. apply Hexists.
  exists alice. split; [apply list_elem_of_here|split; reflexivity].
Defined.

(** The first testable property of the registry, run: the same pair
    registered twice is one record, with its id and a later last_login. *)
Example register_twice :
  run [RegisterPlayer (<["name" := "alice"]> {["class" := "5A"]}) "t0";
       RegisterPlayer (<["name" := "alice"]> {["class" := "5A"]}) "t1"] =
  [Player 1 "alice" "5A" "t0" "t1"].
Proof. reflexivity. Qed.

(** C6: in a registry whose ids are 1..N, deleting an id that is there
    removes the record with that id and no other, lowers the id of each
    later record by one and leaves the earlier ones alone, so that the ids
    are dense again. *)
Theorem delete_player_renumbers (k : Z) (ps : list player) :
  dense_ids ps → (∃ p, p ∈ ps ∧ id p = k) →
  ∃ i p,
    ps !! i = Some p ∧ id p = k ∧
    (∀ j q, ps !! j = Some q → id q = k → j = i) ∧
    (delete_player k ps).1 =
      take i ps ++ ((λ q, set_id (id q - 1) q) <$> drop (S i) ps) ∧
    dense_ids (delete_player k ps).1 ∧
    status (delete_player k ps).2 = "success".
Proof.
  intros Hd (p0 & Hin & Hid). unfold delete_player.
  destruct (list_find (λ p, id p = k) ps) as [[i p]|] eqn:Hfind; simpl.
  - apply list_find_Some in Hfind as (Hi & Hp & _).
    exists i, p. split; [done|]. split; [done|].
    pose proof (proj1 (dense_ids_lookup ps) Hd) as Hids.
    assert (Hlt : (i < length ps)%nat) by (by eapply lookup_lt_Some).
    split; [|split; [|split; [by apply dense_ids_reindex_delete|done]]].
    + intros j q Hj Hq. apply Hids in Hj, Hi. lia.
    + apply list_eq. intros j. rewrite lookup_reindex_from.
      destruct (decide (i ≤ j)%nat) as [Hle|Hgt].
      * rewrite list_lookup_delete_ge by done.
        rewrite lookup_app_r by (rewrite length_take; lia).
        rewrite length_take, Nat.min_l by lia.
        rewrite list_lookup_fmap, lookup_drop.
        replace (S i + (j - i))%nat with (S j) by lia.
        destruct (ps !! S j) as [q|] eqn:Hq; simpl; [|done].
        apply Hids in Hq. do 2 f_equal. lia.
      * rewrite list_lookup_delete_lt by lia.
        rewrite lookup_app_l by (rewrite length_take; lia).
        by rewrite lookup_take_lt by lia.
  - exfalso. apply list_find_None in Hfind.
    rewrite Forall_forall in Hfind. by apply (Hfind p0).
Qed.

Lemma delete_player_renumbers_witness :
  let a := Player 1 "a" "x" "t1" "t1" in
  let b := Player 2 "b" "x" "t2" "t2" in
  let c := Player 3 "c" "x" "t3" "t3" in
  dense_ids (delete_player 2 [a; b; c]).1 ∧
  status (delete_player 2 [a; b; c]).2 = "success".
Proof.
  intros a b c.
  destruct (delete_player_renumbers 2 [a; b; c])
    as (i & p & _ & _ & _ & _ & Hdense & Hst).
  - reflexivity.
  - exists b. split; [|reflexivity]. apply list_elem_of_lookup. by exists 1%nat.
  - split; [exact Hdense|exact Hst].
Defined.

(** The example of the specification: ids [1, 2, 3], delete 2. *)
Example delete_second_of_three :
  let a := Player 1 "a" "x" "t1" "t1" in
  let b := Player 2 "b" "x" "t2" "t2" in
  let c := Player 3 "c" "x" "t3" "t3" in
  (delete_player 2 [a; b; c]).1 = [a; set_id 2 c].
Proof. reflexivity. Qed.

(** C9: deleting an id that no record has answers "error", "Player not
    found" with HTTP status 404 and leaves the registry as it was. *)
Theorem delete_player_not_found (k : Z) (ps : list player) :
  (∀ p, p ∈ ps → id p ≠ k) →
  delete_player k ps = (ps, Response "error" (Some "Player not found") None 404).
Proof.
  intros Hnone. unfold delete_player.
  destruct (list_find (λ p, id p = k) ps) as [[i p]|] eqn:Hfind; [|done].
  apply list_find_Some in Hfind as (Hi & Hp & _).
  exfalso. apply (Hnone p); [|done]. apply list_elem_of_lookup. eauto.
Qed.

Lemma delete_player_not_found_witness :
  let a := Player 1 "a" "x" "t1" "t1" in
  delete_player 7 [a] = ([a], Response "error" (Some "Player not found") None 404).
Proof.
  intros a. apply (delete_player_not_found 7 [a]).
  intros p Hp. apply list_elem_of_singleton in Hp. subst p. simpl. lia.
Defined.

(** C10: a register request without the name field, or without the class
    field, does not fail.  It is handled as the same request with
    "Unknown" in the missing place: the record with that name and class
    gets the request's time as last_login, or, when there is none, a new
    record with that name and class is appended; the answer is success. *)
Theorem register_player_missing_field (data : gmap string string) (t : string)
    (ps : list player) (key : string) :
  key = "name" ∨ key = "class" → data !! key = None →
  let n := default "Unknown" (data !! "name") in
  let c := default "Unknown" (data !! "class") in
  (key = "name" → n = "Unknown") ∧ (key = "class" → c = "Unknown") ∧
  register_player data t ps = register_player (<[key := "Unknown"]> data) t ps ∧
  (register_player data t ps).2 = Response "success" None None 200 ∧
  ((∃ p, p ∈ ps ∧ name p = n ∧ class p = c) →
   ∃ i p,
     ps !! i = Some p ∧ name p = n ∧ class p = c ∧
     (∀ j q, ps !! j = Some q → (j < i)%nat → ¬ (name q = n ∧ class q = c)) ∧
     (register_player data t ps).1 =
       <[i := Player (id p) n c (registered_on p) t]> ps) ∧
  ((∀ p, p ∈ ps → ¬ (name p = n ∧ class p = c)) →
   (register_player data t ps).1 =
     ps ++ [Player (Z.of_nat (length ps) + 1) n c t t]).
Proof.
  intros Hkey Hmiss n c.
  split; [intros ->; unfold n; by rewrite Hmiss|].
  split; [intros ->; unfold c; by rewrite Hmiss|].
  split.
  { unfold register_player. destruct Hkey as [-> | ->].
    - by rewrite lookup_insert_eq, lookup_insert_ne, Hmiss.
    - by rewrite lookup_insert_eq, lookup_insert_ne, Hmiss. }
  split; [apply register_player_status|].
  unfold register_player. fold n c.
  destruct (login_existing n c t ps) as [ps'|] eqn:Hscan; simpl.
  - apply login_existing_Some in Hscan as (i & p & Hi & Hp & Hfirst & ->).
    apply same_player_true in Hp as [Hpn Hpc]. split.
    + intros _. exists i, p. repeat split; [done..| |].
      * intros j q Hj Hlt. apply same_player_false. by apply (Hfirst j).
      * unfold set_last_login. by rewrite Hpn, Hpc.
    + intros Hnone. exfalso. apply (Hnone p); [|done].
      apply list_elem_of_lookup. eauto.
  - rewrite login_existing_None in Hscan. split; [|done].
    intros (p & Hp & Hpn & Hpc). specialize (Hscan p Hp).
    apply same_player_false in Hscan. tauto.
Qed.

Lemma register_player_missing_field_witness :
  register_player {["class" := "5A"]} "t1" [] =
    ([Player 1 "Unknown" "5A" "t1" "t1"], Response "success" None None 200) ∧
  (register_player {["class" := "5A"]} "t2"
     [Player 1 "Unknown" "5A" "t1" "t1"]).1 =
    [Player 1 "Unknown" "5A" "t1" "t2"].
Proof.
  split.
  - destruct (register_player_missing_field {["class" := "5A"]} "t1" [] "name")
      as (_ & _ & _ & Hresp & _ & Hnew); [by left|reflexivity|].
    rewrite (surjective_pairing (register_player _ _ _)), Hresp, Hnew; [done|].
    intros p Hp. by apply elem_of_nil in Hp.
  - destruct (register_player_missing_field {["class" := "5A"]} "t2"
                [Player 1 "Unknown" "5A" "t1" "t1"] "name")
      as (_ & _ & _ & _ & Hold & _); [by left|reflexivity|].
    destruct Hold as (i & p & Hi & _ & _ & _ & ->).
    { eexists. split; [apply list_elem_of_here|]. by split. }
    destruct i as [|i]; [|by destruct i].
    simpl in Hi. by injection Hi as <-.
Defined.

Example register_without_name :
  (register_player {["class" := "5A"]} "t1" []).1 =
  [Player 1 "Unknown" "5A" "t1" "t1"].
Proof. reflexivity. Qed.

End RegistryClaims.

(** ** The renderer *)

Lemma plt_plot_same {X Y} (x : list X) (y : list Y) (lbl : string) :
  length x = length y → plt_plot x y lbl = Ok (Line x y lbl).
Proof. intros Hlen. unfold plt_plot. by rewrite bool_decide_eq_true_2. Qed.

Lemma plt_plot_differ {X Y} (x : list X) (y : list Y) (lbl : string) :
  length x ≠ length y → plt_plot x y lbl = Raise ValueError.
Proof. intros Hlen. unfold plt_plot. by rewrite bool_decide_eq_false_2. Qed.

Lemma is_empty_false {X} (l : list X) : (0 < length l)%nat → is_empty l = false.
Proof. destruct l; simpl; [lia|done]. Qed.

(** ** Telemetry: missing fields and the learning curve *)

Section TelemetryFacts.
Import Telemetry.
Context {V : Type}.
Implicit Types (data : gmap string V) (ld : learning_data V).

Lemma getitem_Some data key v : data !! key = Some v → getitem data key = Ok v.
Proof. unfold getitem. by intros ->. Qed.

Lemma getitem_None data key :
  data !! key = None → getitem data key = Raise (KeyError key).
Proof. unfold getitem. by intros ->. Qed.

(** With the four fields there, one value goes to the end of each series;
    [playerName] and [playerClass] may be absent. *)
Lemma save_generation_data_complete data ld g f d s :
  data !! "generation" = Some g → data !! "fitness" = Some f →
  data !! "dots_eaten" = Some d → data !! "score" = Some s →
  save_generation_data data ld =
    (LearningData (generations ld ++ [g]) (fitness_scores ld ++ [f])
                  (dots_eaten ld ++ [d]) (scores ld ++ [s]),
     Ok (jsonify_status "success")).
Proof.
  intros Hg Hf Hd Hs. unfold save_generation_data, append_field. simpl.
  rewrite (getitem_Some _ _ _ Hg). simpl.
  rewrite (getitem_Some _ _ _ Hf). simpl.
  rewrite (getitem_Some _ _ _ Hd). simpl.
  by rewrite (getitem_Some _ _ _ Hs).
Qed.

(** Without one of them the handler raises, whatever else is there. *)
Lemma save_generation_data_missing data ld key :
  key ∈ ["generation"; "fitness"; "dots_eaten"; "score"] →
  data !! key = None →
  ∃ key', (save_generation_data data ld).2 = Raise (KeyError key').
Proof.
  intros Hkey Hmiss. unfold save_generation_data, append_field. simpl.
  unfold getitem.
  destruct (data !! "generation") eqn:Hg; simpl; [|by eexists].
  destruct (data !! "fitness") eqn:Hf; simpl; [|by eexists].
  destruct (data !! "dots_eaten") eqn:Hd; simpl; [|by eexists].
  destruct (data !! "score") eqn:Hs; simpl; [|by eexists].
  exfalso.
  repeat (apply elem_of_cons in Hkey as [->|Hkey]; [congruence|]).
  by apply elem_of_nil in Hkey.
Qed.

Lemma plt_plot_take (m : nat) (x y : list V) (lbl : string) :
  (m ≤ length x)%nat → (m ≤ length y)%nat →
  plt_plot (take m x) (take m y) lbl = Ok (Line (take m x) (take m y) lbl).
Proof.
  intros Hx Hy. unfold plt_plot.
  rewrite bool_decide_eq_true_2; [done|]. rewrite !length_take. lia.
Qed.

(** C7, as the code has it: the learning curve is an error when the
    shortest of the four series is empty (in particular when there are no
    generations); otherwise all three subplots are drawn from the first
    min-length elements of the series, min-length points each. *)
Theorem get_learning_curve_truncates ld :
  (min_length ld = 0%nat →
   ∃ msg, get_learning_curve ld = Ok (jsonify_message "error" msg 200)) ∧
  (min_length ld ≠ 0%nat →
   get_learning_curve ld =
     Ok (jsonify_plot "success" (curve_of_first (min_length ld) ld)) ∧
   Forall (λ l, length (xdata l) = min_length ld ∧
                length (ydata l) = min_length ld)
          (curve_of_first (min_length ld) ld)).
Proof.
  unfold get_learning_curve. fold (min_length ld). split.
  - intros Hz. destruct (generations ld); simpl; [by eexists|].
    rewrite bool_decide_eq_true_2 by done. by eexists.
  - intros Hnz. assert (generations ld ≠ []) as Hgen.
    { intros Hnil. apply Hnz. unfold min_length. by rewrite Hnil. }
    pose proof (Nat.le_min_l (length (generations ld))
      (Nat.min (length (fitness_scores ld))
         (Nat.min (length (dots_eaten ld)) (length (scores ld))))) as Hg.
    assert (min_length ld ≤ length (fitness_scores ld) ∧
            min_length ld ≤ length (dots_eaten ld) ∧
            min_length ld ≤ length (scores ld))%nat as (Hf & Hd & Hs)
      by (unfold min_length; lia).
    fold (min_length ld) in Hg. split.
    + destruct (generations ld) as [|g gs] eqn:Hgs; [done|]. simpl is_empty.
      cbv iota. rewrite bool_decide_eq_false_2 by done.
      rewrite <- Hgs in *. rewrite !plt_plot_take by done. done.
    + unfold curve_of_first. repeat constructor; simpl;
        rewrite length_take; lia.
Qed.

End TelemetryFacts.

(** ** Reward plot: the moving average *)

Section PlotFacts.
Import Plot.
Context {num : Type} `{PyNum num}.
Implicit Types (l rewards : list num).

(** Keeping the elements whose position lies in [[a, b)] is a slice; [k]
    is the position of the head of [l]. *)
Lemma filter_index_interval l (k a b : nat) :
  (filter (λ jx : nat * num, (a ≤ jx.1 < b)%nat)
          (imap (λ j x, ((k + j)%nat, x)) l)).*2 =
  take ((b - k) - (a - k)) (drop (a - k) l).
Proof.
  revert k. induction l as [|x l IH]; intros k.
  - by rewrite drop_nil, take_nil.
  - rewrite imap_cons.
    rewrite (imap_ext _ (λ j x, ((S k + j)%nat, x)))
      by (intros; simpl; f_equal; lia).
    destruct (decide (a ≤ k < b)%nat) as [Hin|Hout].
    + rewrite filter_cons_True by (simpl; lia). rewrite fmap_cons, IH. simpl.
      replace (a - k)%nat with 0%nat by lia.
      replace (a - S k)%nat with 0%nat by lia.
      rewrite !Nat.sub_0_r. simpl.
      destruct (b - k)%nat as [|m] eqn:Hbk; [lia|]. simpl.
      do 2 f_equal. lia.
    + rewrite filter_cons_False by (simpl; lia). rewrite IH.
      destruct (decide (k < a)%nat) as [Hlt|Hge].
      * replace (a - k)%nat with (S (a - S k)) by lia. simpl. f_equal. lia.
      * replace (b - k)%nat with 0%nat by lia.
        replace (b - S k)%nat with 0%nat by lia. done.
Qed.

(** The slice the loop takes is the centred window, cut at both ends. *)
Lemma centered_window_slice l (i : nat) :
  centered_window l i =
  slice (Z.max 0 (Z.of_nat i - window_size `div` 2))
        (Z.min (Z.of_nat (length l)) (Z.of_nat i + window_size `div` 2 + 1)) l.
Proof.
  unfold centered_window, slice. change (window_size `div` 2) with 2.
  rewrite (list_filter_iff _ (λ jx, (i - 2 ≤ jx.1 < i + 3)%nat))
    by (intros [j x]; simpl; lia).
  rewrite (imap_ext _ (λ j x, ((0 + j)%nat, x))) by done.
  rewrite filter_index_interval.
  replace (Z.to_nat (Z.max 0 (Z.of_nat i - 2))) with (i - 2)%nat by lia.
  replace (Z.to_nat (Z.min (Z.of_nat (length l)) (Z.of_nat i + 2 + 1)))
    with (Nat.min (length l) (i + 3)) by lia.
  rewrite !Nat.sub_0_r.
  destruct (decide (i + 3 ≤ length l)%nat) as [Hin|Hcut].
  - by rewrite Nat.min_r.
  - rewrite Nat.min_l by lia. rewrite !take_ge; [done|rewrite length_drop; lia..].
Qed.

Lemma length_centered_window l (i : nat) :
  (i < length l)%nat →
  Z.of_nat (length (centered_window l i)) =
  Z.min (Z.of_nat (length l)) (Z.of_nat i + window_size `div` 2 + 1)
  - Z.max 0 (Z.of_nat i - window_size `div` 2).
Proof.
  intros Hi. rewrite centered_window_slice. unfold slice.
  change (window_size `div` 2) with 2.
  rewrite length_take, length_drop. lia.
Qed.

(** The loop that collects the results of [f]. *)
Lemma collect_ext {A B} (f g : A → result B) (js : list A) :
  (∀ j, j ∈ js → f j = g j) → collect f js = collect g js.
Proof.
  induction js as [|j js IH]; intros Hfg; simpl; [done|].
  rewrite (Hfg j (list_elem_of_here _ _)), IH; [done|].
  intros j' Hj'. apply Hfg. by right.
Qed.

Lemma collect_Ok {A B} (f : A → result B) (js : list A) (ys : list B) :
  collect f js = Ok ys →
  length ys = length js ∧
  ∀ i j, js !! i = Some j → ∃ y, ys !! i = Some y ∧ f j = Ok y.
Proof.
  revert ys. induction js as [|j js IH]; intros ys; simpl.
  - intros [= <-]. split; [done|]. intros i j Hj. done.
  - destruct (f j) as [y|e] eqn:Hy; simpl; [|done].
    destruct (collect f js) as [ys'|e] eqn:Hys; simpl; [|done].
    intros [= <-]. destruct (IH ys' eq_refl) as [Hlen Hval].
    split; [simpl; by rewrite Hlen|].
    intros [|i] j' Hj'; simpl in *.
    + injection Hj' as <-. by exists y.
    + by apply Hval.
Qed.

Lemma collect_total {A B} (f : A → result B) (js : list A) :
  (∀ j, j ∈ js → ∃ y, f j = Ok y) → ∃ ys, collect f js = Ok ys.
Proof.
  induction js as [|j js IH]; intros Hall; simpl; [by eexists|].
  destruct (Hall j (list_elem_of_here _ _)) as [y ->].
  destruct IH as [ys ->]; [intros j' Hj'; apply Hall; by right|].
  by eexists.
Qed.

(** The body of the loop computes the mean of the centred window. *)
Lemma average_at_mean rewards (i : nat) :
  (i < length rewards)%nat →
  average_at rewards i = mean (centered_window rewards i).
Proof.
  intros Hi. unfold average_at, mean, start_idx, end_idx.
  by rewrite length_centered_window, centered_window_slice.
Qed.

Lemma length_moving_average rewards avg :
  moving_average rewards = Ok avg → length avg = length rewards.
Proof.
  unfold moving_average. intros Havg.
  apply collect_Ok in Havg as [Hlen _]. by rewrite Hlen, length_seq.
Qed.

(** C8: the moving average loop is the loop that takes, for each index
    [i], the mean, [sum / count], of the rewards whose index is within 2
    of [i] (near the ends the window holds only the rewards that exist).
    When it returns, it has one value per reward, the mean of the window
    at that index; and it returns whenever none of these means raises. *)
Theorem moving_average_centered rewards :
  moving_average rewards =
    collect (λ i, mean (centered_window rewards i))
            (seq 0 (length rewards)) ∧
  (∀ avg, moving_average rewards = Ok avg →
     length avg = length rewards ∧
     ∀ i : nat, (i < length rewards)%nat →
       ∃ a, avg !! i = Some a ∧ mean (centered_window rewards i) = Ok a) ∧
  ((∀ i : nat, (i < length rewards)%nat →
      ∃ a, mean (centered_window rewards i) = Ok a) →
   ∃ avg, moving_average rewards = Ok avg).
Proof.
  assert (moving_average rewards =
          collect (λ i, mean (centered_window rewards i))
                  (seq 0 (length rewards))) as Hloop.
  { unfold moving_average. apply collect_ext. intros i Hi.
    apply elem_of_seq in Hi. apply average_at_mean. lia. }
  split; [done|]. split.
  - intros avg Havg. split; [by apply length_moving_average|].
    intros i Hi. rewrite Hloop in Havg.
    apply collect_Ok in Havg as [_ Hval].
    apply (Hval i i). by apply lookup_seq_lt.
  - intros Hmeans. rewrite Hloop. apply collect_total.
    intros i Hi. apply elem_of_seq in Hi. apply Hmeans. lia.
Qed.

(** Ten rewards: the window at index 0 is the first three of them. *)
Lemma window_at_start (r0 r1 r2 r3 r4 r5 r6 r7 r8 r9 : num) :
  centered_window [r0; r1; r2; r3; r4; r5; r6; r7; r8; r9] 0 = [r0; r1; r2].
Proof. reflexivity. Qed.

(** Below the sampling threshold the arrays reach the renderer as they
    were sent, whatever their lengths. *)
Lemma prepare_small (episodes rewards states : list num) :
  (Nat.min (length episodes) (Nat.min (length rewards) (length states)) ≤ 500)%nat →
  prepare episodes rewards states =
    (moving_avg ← moving_average rewards;
     Ok (Series episodes rewards states, moving_avg)).
Proof.
  intros Hsmall. unfold prepare, downsample.
  rewrite bool_decide_eq_false_2 by lia. done.
Qed.

(** A missing or empty array is answered with an error status. *)
Lemma generate_learning_plot_missing (data : gmap string (list num)) key :
  key ∈ ["episodes"; "rewards"; "states"] →
  default [] (data !! key) = [] →
  ∃ msg, generate_learning_plot data = Ok (jsonify_message "error" msg 200).
Proof.
  intros Hkey Hmiss. unfold generate_learning_plot.
  case_bool_decide; [by eexists|].
  repeat (apply elem_of_cons in Hkey as [->|Hkey];
          [rewrite Hmiss; simpl; rewrite ?orb_true_r; by eexists|]).
  by apply elem_of_nil in Hkey.
Qed.

(** [l[::k]] holds the elements of [l] at the multiples of [k]. *)
Lemma lookup_every l (k wait j : nat) :
  (1 ≤ k)%nat → every k wait l !! j = l !! (wait + j * k)%nat.
Proof.
  intros Hk. revert wait j. induction l as [|x l IH]; intros wait j; [done|].
  destruct wait as [|w]; simpl.
  - destruct j as [|j]; simpl; [done|]. rewrite IH.
    replace (k + j * k)%nat with (S (k - 1 + j * k)) by lia. done.
  - apply IH.
Qed.

Lemma lookup_slice_step l (k j : nat) :
  (1 ≤ k)%nat → slice_step k l !! j = l !! (j * k)%nat.
Proof. intros Hk. unfold slice_step. by rewrite lookup_every. Qed.

Lemma getlast_elem_of l x : getlast l = Ok x → x ∈ l.
Proof.
  unfold getlast. destruct (last l) as [y|] eqn:Hlast; [|done].
  intros [= ->]. rewrite last_lookup in Hlast.
  apply list_elem_of_lookup. eauto.
Qed.

(** Above the threshold every reward that is drawn is one of the samples:
    the value appended at the end is a sample too. *)
Lemma downsample_rewards_sampled (m : nat) (s s' : series) :
  (500 < m)%nat → downsample m s = Ok s' →
  ∀ r, r ∈ rewards_of s' → r ∈ slice_step (Nat.max 1 (m / 500)) (rewards_of s).
Proof.
  intros Hm. unfold downsample. rewrite bool_decide_eq_true_2 by done.
  destruct (getlast (slice_step _ (episodes_of s))) as [e|]; simpl; [|done].
  destruct (num_ne_int e (Z.of_nat m)).
  - destruct (getlast (slice_step _ (rewards_of s))) as [r0|] eqn:Hr0;
      simpl; [|done].
    destruct (getlast (slice_step _ (states_of s))) as [s0|]; simpl; [|done].
    intros [= <-] r. simpl. rewrite elem_of_app, list_elem_of_singleton.
    intros [Hr| ->]; [done|]. by apply getlast_elem_of.
  - by intros [= <-] r.
Qed.

(** Arrays of different lengths below the threshold never get past the
    renderer: nothing has cut them to a common length. *)
Lemma generate_learning_plot_uneven
    (data : gmap string (list num)) (episodes rewards states : list num)
    (avg : list num_quotient) :
  data !! "episodes" = Some episodes → data !! "rewards" = Some rewards →
  data !! "states" = Some states →
  (0 < Nat.min (length episodes) (Nat.min (length rewards) (length states))
     ≤ 500)%nat →
  moving_average rewards = Ok avg →
  ¬ (length episodes = length rewards ∧ length episodes = length states) →
  generate_learning_plot data = Raise ValueError.
Proof.
  intros He Hr Hs Hmin Havg Hne. unfold generate_learning_plot.
  rewrite bool_decide_eq_false_2.
  2:{ intros Hsz. apply map_size_empty_iff in Hsz. by rewrite Hsz in He. }
  rewrite He, Hr, Hs. simpl.
  rewrite !is_empty_false by lia. simpl.
  rewrite bool_decide_eq_false_2 by lia.
  rewrite prepare_small, Havg by lia. simpl.
  apply length_moving_average in Havg.
  destruct (decide (length episodes = length rewards)) as [Her|Her].
  - rewrite (plt_plot_same _ _ _ Her). simpl.
    rewrite (plt_plot_same episodes avg) by congruence.
    simpl. rewrite (plt_plot_differ episodes states) by tauto. done.
  - by rewrite (plt_plot_differ _ _ _ Her).
Qed.

End PlotFacts.

(** ** The handlers run on the sample requests *)

Section Runs.
Import Samples.

(** C1: three episodes, two rewards, three states.  The arrays reach the
    renderer with 3, 2 and 3 elements, not cut to 2, and the request ends
    in the renderer's ValueError instead of a chart of 2 points. *)
Theorem reward_plot_not_truncated :
  Plot.prepare (HNum := int_num) (ints 1 3) (ints 10 2) (ints 20 3) =
    Ok (Plot.Series (ints 1 3) (ints 10 2) (ints 20 3),
        [IntQuotient 21 2; IntQuotient 21 2]) ∧
  Plot.Series (ints 1 3) (ints 10 2) (ints 20 3) ≠
    Plot.truncate (ints 1 3) (ints 10 2) (ints 20 3) ∧
  Plot.generate_learning_plot uneven = Raise ValueError.
Proof.
  split; [reflexivity|]. split.
  - intros Heq. apply (f_equal (λ s, length (Plot.episodes_of s))) in Heq.
    discriminate Heq.
  - apply (generate_learning_plot_uneven (H := int_num) uneven (ints 1 3)
             (ints 10 2) (ints 20 3) [IntQuotient 21 2; IntQuotient 21 2]);
      try reflexivity; simpl; lia.
Qed.

(** C2: a thousand episodes.  The stride is 2, so the samples are the
    elements at the even positions and the last of them is element 998;
    what is appended after them is the episode number 1000 and, again, the
    reward and the state count of element 998.  The reward and the state
    count of the last episode (2000 and 3000) are not in the chart; the
    chart itself is produced without error, 501 points a line. *)
Theorem reward_plot_misses_last_sample :
  ∃ s avg,
    Plot.prepare (ints 1 1000) (ints 1001 1000) (ints 2001 1000) = Ok (s, avg) ∧
    last (ints 1001 1000) = Some 2000 ∧
    last (ints 2001 1000) = Some 3000 ∧
    drop 498 (Plot.episodes_of s) = ints 997 1 ++ ints 999 1 ++ ints 1000 1 ∧
    drop 498 (Plot.rewards_of s) = ints 1997 1 ++ ints 1999 1 ++ ints 1999 1 ∧
    drop 498 (Plot.states_of s) = ints 2997 1 ++ ints 2999 1 ++ ints 2999 1 ∧
    forallb (λ r, negb (r =? 2000)) (Plot.rewards_of s) = true ∧
    forallb (λ r, negb (r =? 3000)) (Plot.states_of s) = true ∧
    ∃ l1 l2 l3,
      Plot.generate_learning_plot thousand =
        Ok (jsonify_plot "success" (Plot.Chart l1 l2 l3)) ∧
      ydata l1 = Plot.rewards_of s ∧ ydata l3 = Plot.states_of s.
Proof.
  set (prepared :=
         Plot.prepare (ints 1 1000) (ints 1001 1000) (ints 2001 1000)).
  set (answer := Plot.generate_learning_plot thousand).
  exists (match prepared with
          | Ok (s, _) => s
          | Raise _ => Plot.Series [] [] []
          end),
         (match prepared with
          | Ok (_, avg) => avg
          | Raise _ => []
          end).
  repeat (split; [vm_compute; reflexivity|]).
  exists (match answer with
          | Ok (Response _ _ (Some c) _) => Plot.rewards_line c
          | _ => Line [] [] ""
          end),
         (match answer with
          | Ok (Response _ _ (Some c) _) => Plot.average_line c
          | _ => Line [] [] ""
          end),
         (match answer with
          | Ok (Response _ _ (Some c) _) => Plot.states_line c
          | _ => Line [] [] ""
          end).
  split; [vm_cast_no_check (eq_refl answer)|].
  split; vm_compute; reflexivity.
Qed.

(** The division of the moving average can raise: one reward of 10 ** 400
    is too large for the float that [/] returns. *)
Example generate_learning_plot_overflow :
  Plot.generate_learning_plot (HNum := int_num)
    {[ "episodes" := [1]; "rewards" := [10 ^ 400]; "states" := [1] ]} =
  Raise OverflowError.
Proof. vm_compute. reflexivity. Qed.

Example int_truediv_largest :
  int_truediv (float_overflow * 3 - 1) 3 = Ok (IntQuotient (float_overflow * 3 - 1) 3) ∧
  int_truediv (float_overflow * 3) 3 = Raise OverflowError ∧
  int_truediv (- (float_overflow * 3)) 3 = Raise OverflowError.
Proof. repeat split; vm_compute; reflexivity. Qed.

(** C3: a generation report without the fitness field.  The generation
    is stored, then the lookup of the fitness raises KeyError: there is
    no JSON body, and the four series are left with different lengths. *)
Theorem save_generation_data_raises :
  Telemetry.save_generation_data no_fitness Telemetry.empty_store =
    (Telemetry.LearningData [1] [] [] [], Raise (KeyError "fitness")).
Proof. reflexivity. Qed.

(** The same report with the fitness is stored and answered. *)
Example save_generation_data_stores :
  Telemetry.save_generation_data (<["fitness" := 5]> no_fitness)
                                 Telemetry.empty_store =
    (Telemetry.LearningData [1] [5] [3] [10], Ok (jsonify_status "success")).
Proof. reflexivity. Qed.

(** C7, as the specification words it, fails on the store a report with
    the generation field only leaves behind: generations are there, and
    the answer is an error, not a chart. *)
Lemma learning_curve_not_as_specified :
  ¬ Telemetry.learning_curve_as_specified
      (Telemetry.save_generation_data generation_only Telemetry.empty_store).1.
Proof.
  intros [_ Hdraw]. specialize (Hdraw ltac:(discriminate)).
  vm_compute in Hdraw. discriminate Hdraw.
Qed.

Lemma get_learning_curve_truncates_witness :
  Telemetry.min_length ragged = 3%nat ∧
  Telemetry.get_learning_curve ragged =
    Ok (jsonify_plot "success"
          [Line [1; 2; 3] [10; 20; 30] "Fitness";
           Line [1; 2; 3] [7; 7; 8] "Dots Eaten";
           Line [1; 2; 3] [100; 200; 300] "Game Score"]).
Proof.
  split; [reflexivity|].
  destruct (get_learning_curve_truncates ragged) as [_ Hdraw].
  destruct Hdraw as [Hchart _]; [vm_compute; lia|].
  exact Hchart.
Defined.

Lemma moving_average_centered_witness :
  Plot.centered_window (ints 1 10) 0 = [1; 2; 3] ∧
  Plot.mean (HNum := int_num) (Plot.centered_window (ints 1 10) 0) =
    Ok (IntQuotient 6 3) ∧
  ∃ avg, Plot.moving_average (HNum := int_num) (ints 1 10) = Ok avg ∧
         avg !! 0%nat = Some (IntQuotient 6 3).
Proof.
  split; [reflexivity|]. split; [reflexivity|].
  destruct (moving_average_centered (ints 1 10)) as (_ & Hvalues & Hreturns).
  destruct Hreturns as [avg Havg].
  { intros i Hi.
    do 10 (destruct i as [|i]; [by eexists|]). simpl in Hi. lia. }
  exists avg. split; [exact Havg|].
  destruct (Hvalues avg Havg) as [_ Hat].
  destruct (Hat 0%nat ltac:(simpl; lia)) as (a & Ha & Hmean).
  change (Ok (IntQuotient 6 3) = Ok a) in Hmean.
  injection Hmean as <-. exact Ha.
Defined.

End Runs.

(** ** More on the registry *)

Section RegistryMore.
Import Registry.

Lemma login_existing_present n c t (ps : list player) p :
  p ∈ ps → name p = n → class p = c →
  ∃ i q, ps !! i = Some q ∧ name q = n ∧ class q = c ∧
         login_existing n c t ps = Some (<[i := set_last_login t q]> ps).
Proof.
  intros Hp Hn Hc.
  destruct (login_existing n c t ps) as [ps'|] eqn:Hscan.
  - apply login_existing_Some in Hscan as (i & q & Hi & Hq & _ & ->).
    apply same_player_true in Hq as [Hqn Hqc]. by exists i, q.
  - rewrite login_existing_None in Hscan. specialize (Hscan p Hp).
    apply same_player_false in Hscan. tauto.
Qed.

Lemma login_existing_absent n c t (ps : list player) :
  (∀ p, p ∈ ps → ¬ (name p = n ∧ class p = c)) →
  login_existing n c t ps = None.
Proof.
  intros Hnone. apply login_existing_None. intros p Hp.
  apply same_player_false. by apply Hnone.
Qed.

(** The two shapes of the registry after a registration. *)
Lemma register_player_cases data t (ps : list player) :
  let n := default "Unknown" (data !! "name") in
  let c := default "Unknown" (data !! "class") in
  (∃ i q, ps !! i = Some q ∧ name q = n ∧ class q = c ∧
          (register_player data t ps).1 = <[i := set_last_login t q]> ps) ∨
  ((∀ p, p ∈ ps → ¬ (name p = n ∧ class p = c)) ∧
   (register_player data t ps).1 =
     ps ++ [Player (Z.of_nat (length ps) + 1) n c t t]).
Proof.
  intros n c. unfold register_player. fold n c.
  destruct (login_existing n c t ps) as [ps'|] eqn:Hscan; simpl.
  - left. apply login_existing_Some in Hscan as (i & q & Hi & Hq & _ & ->).
    apply same_player_true in Hq as [Hqn Hqc]. by exists i, q.
  - right. split; [|done]. rewrite login_existing_None in Hscan.
    intros p Hp. apply same_player_false. by apply Hscan.
Qed.

Lemma register_player_holds_pair data t (ps : list player) :
  ∃ p, p ∈ (register_player data t ps).1 ∧
       name p = default "Unknown" (data !! "name") ∧
       class p = default "Unknown" (data !! "class").
Proof.
  destruct (register_player_cases data t ps)
    as [(i & q & Hi & Hn & Hc & ->)|[_ ->]].
  - exists (set_last_login t q). split; [|done].
    apply list_elem_of_lookup. exists i.
    apply list_lookup_insert_eq. by eapply lookup_lt_Some.
  - eexists. split; [apply elem_of_app; right; apply list_elem_of_here|done].
Qed.

(** X1: after a registration the registry holds a record with the name
    and class of the request ("Unknown" for a missing one) and the
    request's time as last_login, whatever the registry was. *)
Theorem register_player_then_present (data : gmap string string) (t : string)
    (ps : list player) :
  ∃ p, p ∈ (register_player data t ps).1 ∧
       name p = default "Unknown" (data !! "name") ∧
       class p = default "Unknown" (data !! "class") ∧
       last_login p = t.
Proof.
  destruct (register_player_cases data t ps)
    as [(i & q & Hi & Hn & Hc & ->)|[_ ->]].
  - exists (set_last_login t q). split; [|done].
    apply list_elem_of_lookup. exists i.
    apply list_lookup_insert_eq. by eapply lookup_lt_Some.
  - eexists. split; [apply elem_of_app; right; apply list_elem_of_here|done].
Qed.

(** X2: a registration never removes, reorders or renumbers the records
    that are there, and never touches their name, class or registered_on;
    the registry grows by one record at most. *)
Theorem register_player_keeps_records (data : gmap string string) (t : string)
    (ps : list player) :
  let key := λ p, (id p, name p, class p, registered_on p) in
  key <$> ps `prefix_of` key <$> (register_player data t ps).1 ∧
  (length ps ≤ length (register_player data t ps).1 ≤ S (length ps))%nat.
Proof.
  intros key.
  destruct (register_player_cases data t ps)
    as [(i & q & Hi & Hn & Hc & ->)|[_ ->]].
  - rewrite list_fmap_insert, length_insert.
    rewrite list_insert_id by (by rewrite list_lookup_fmap, Hi).
    split; [done|lia].
  - rewrite fmap_app, length_app. simpl. split; [apply prefix_app_r; done|lia].
Qed.

(** X4: the same request sent twice in a row never makes a second
    record: the second registration keeps the number of records and
    their ids, in any registry. *)
Theorem register_player_twice (data : gmap string string) (t1 t2 : string)
    (ps : list player) :
  let once := (register_player data t1 ps).1 in
  let twice := (register_player data t2 once).1 in
  length twice = length once ∧ id <$> twice = id <$> once ∧
  registered_on <$> twice = registered_on <$> once.
Proof.
  intros once twice.
  destruct (register_player_holds_pair data t1 ps) as (p & Hp & Hn & Hc).
  destruct (register_player_cases data t2 once)
    as [(i & q & Hi & _ & _ & Heq)|[Hnone _]].
  - unfold twice. rewrite Heq, !list_fmap_insert, length_insert. simpl.
    rewrite !list_insert_id; [done|by rewrite list_lookup_fmap, Hi..].
  - exfalso. by apply (Hnone p Hp).
Qed.

(** Renumbering changes ids only. *)
Lemma fmap_reindex_from {B} (f : player → B) i (ps : list player) :
  (∀ n p, f (set_id n p) = f p) → f <$> reindex_from i ps = f <$> ps.
Proof.
  intros Hf. apply list_eq. intros j.
  rewrite !list_lookup_fmap, lookup_reindex_from.
  case_decide; [|done]. destruct (ps !! j); simpl; by rewrite ?Hf.
Qed.

Lemma take_reindex_from i (ps : list player) :
  take i (reindex_from i ps) = take i ps.
Proof.
  apply list_eq. intros j. destruct (decide (j < i)%nat) as [Hlt|Hge].
  - rewrite !lookup_take_lt, lookup_reindex_from by done.
    by rewrite decide_False by lia.
  - by rewrite !lookup_take_ge by lia.
Qed.

(** In a registry with ids 1..N the record at position [i] is the one
    the scan for id [i + 1] stops at. *)
Lemma list_find_dense (ps : list player) i p :
  dense_ids ps → ps !! i = Some p →
  list_find (λ q, id q = Z.of_nat i + 1) ps = Some (i, p).
Proof.
  rewrite dense_ids_lookup. intros Hd Hi. apply list_find_Some.
  split; [done|]. split; [by apply Hd|].
  intros j q Hj Hlt Hq. apply Hd in Hj. lia.
Qed.

Lemma reindex_delete_dense (ps : list player) i :
  dense_ids ps → (i < length ps)%nat →
  reindex_from i (delete i ps) =
    take i ps ++ ((λ q, set_id (id q - 1) q) <$> drop (S i) ps).
Proof.
  rewrite dense_ids_lookup. intros Hd Hlt.
  apply list_eq. intros j. rewrite lookup_reindex_from.
  destruct (decide (i ≤ j)%nat) as [Hle|Hgt].
  - rewrite list_lookup_delete_ge by done.
    rewrite lookup_app_r by (rewrite length_take; lia).
    rewrite length_take, Nat.min_l by lia.
    rewrite list_lookup_fmap, lookup_drop.
    replace (S i + (j - i))%nat with (S j) by lia.
    destruct (ps !! S j) as [q|] eqn:Hq; simpl; [|done].
    apply Hd in Hq. do 2 f_equal. lia.
  - rewrite list_lookup_delete_lt by lia.
    rewrite lookup_app_l by (rewrite length_take; lia).
    by rewrite lookup_take_lt by lia.
Qed.

Lemma delete_player_dense (ps : list player) i p :
  dense_ids ps → ps !! i = Some p →
  (delete_player (Z.of_nat i + 1) ps).1 =
    take i ps ++ ((λ q, set_id (id q - 1) q) <$> drop (S i) ps) ∧
  dense_ids (delete_player (Z.of_nat i + 1) ps).1.
Proof.
  intros Hd Hi. unfold delete_player. rewrite (list_find_dense ps i p Hd Hi).
  simpl. split; [|by apply dense_ids_reindex_delete].
  apply reindex_delete_dense; [done|by eapply lookup_lt_Some].
Qed.

(** X3: registering a pair that is not in a registry with ids 1..N and
    then deleting the id it was given, N + 1, gives the registry back as
    it was. *)
Theorem register_then_delete (data : gmap string string) (t : string)
    (ps : list player) :
  dense_ids ps →
  (∀ p, p ∈ ps → ¬ (name p = default "Unknown" (data !! "name") ∧
                    class p = default "Unknown" (data !! "class"))) →
  delete_player (Z.of_nat (length ps) + 1) (register_player data t ps).1 =
    (ps, Response "success" (Some "Player deleted successfully") None 200).
Proof.
  intros Hd Hnew.
  destruct (register_player_cases data t ps)
    as [(i & q & Hi & Hn & Hc & _)|[_ ->]].
  { exfalso. apply (Hnew q); [|done]. apply list_elem_of_lookup. eauto. }
  set (new := Player _ _ _ t t). unfold delete_player.
  assert (list_find (λ p, id p = Z.of_nat (length ps) + 1) (ps ++ [new]) =
          Some (length ps, new)) as ->.
  { apply list_find_Some. split; [apply list_lookup_middle; done|].
    split; [done|]. intros j q Hj Hlt Hq.
    rewrite lookup_app_l in Hj by done.
    apply (proj1 (dense_ids_lookup ps) Hd) in Hj. lia. }
  rewrite delete_middle, app_nil_r. unfold reindex_from.
  by rewrite Nat.sub_diag.
Qed.

Lemma register_then_delete_witness :
  let a := Player 1 "a" "x" "t1" "t1" in
  let data : gmap string string := {[ "name" := "b"; "class" := "x" ]} in
  delete_player 2 (register_player data "t2" [a]).1 =
    ([a], Response "success" (Some "Player deleted successfully") None 200).
Proof.
  intros a data. apply (register_then_delete data "t2" [a]).
  - reflexivity.
  - intros p Hp. apply list_elem_of_singleton in Hp. subst p.
    simpl. intros [Hn _]. discriminate Hn.
Defined.

(** X5: a delete that finds its id removes one record, the first with
    that id, in any registry: the records before it are left as they are,
    and name, class, registered_on and last_login of the others are what
    they were, in the same order. *)
Theorem delete_player_keeps_columns (k : Z) (ps : list player) :
  (∃ p, p ∈ ps ∧ id p = k) →
  let cols := λ p, (name p, class p, registered_on p, last_login p) in
  ∃ i p,
    ps !! i = Some p ∧ id p = k ∧
    (∀ j q, ps !! j = Some q → (j < i)%nat → id q ≠ k) ∧
    cols <$> (delete_player k ps).1 = delete i (cols <$> ps) ∧
    take i (delete_player k ps).1 = take i ps ∧
    S (length (delete_player k ps).1) = length ps.
Proof.
  intros (p0 & Hin & Hid) cols. unfold delete_player.
  destruct (list_find (λ p, id p = k) ps) as [[i p]|] eqn:Hfind; simpl.
  - apply list_find_Some in Hfind as (Hi & Hp & Hfirst).
    assert (Hlt : (i < length ps)%nat) by (by eapply lookup_lt_Some).
    exists i, p. repeat split; [done..| | |].
    + rewrite fmap_reindex_from by done. apply list_fmap_delete.
    + rewrite take_reindex_from.
      rewrite delete_take_drop, take_app_le by (rewrite length_take; lia).
      rewrite take_take. f_equal. lia.
    + rewrite length_reindex_from, length_delete by eauto. lia.
  - exfalso. apply list_find_None in Hfind.
    rewrite Forall_forall in Hfind. by apply (Hfind p0).
Qed.

Lemma delete_player_keeps_columns_witness :
  let a := Player 7 "a" "x" "t1" "t1" in
  let b := Player 7 "b" "x" "t2" "t2" in
  S (length (delete_player 7 [a; b]).1) = length [a; b].
Proof.
  intros a b.
  destruct (delete_player_keeps_columns 7 [a; b])
    as (i & p & _ & _ & _ & _ & _ & Hlen).
  - exists a. split; [apply list_elem_of_here|reflexivity].
  - exact Hlen.
Defined.

(** X6: ids do not stay with their players.  In a registry with ids 1..N
    where the deleted record is not the last, the record after it takes
    over its id, so deleting the same id once more succeeds and removes
    that next player. *)
Theorem delete_player_twice (ps : list player) (i : nat) (p q : player) :
  dense_ids ps → ps !! i = Some p → ps !! S i = Some q →
  let k := Z.of_nat i + 1 in
  (delete_player k ps).1 !! i = Some (set_id k q) ∧
  (delete_player k (delete_player k ps).1).1 =
    take i ps ++ ((λ r, set_id (id r - 2) r) <$> drop (S (S i)) ps).
Proof.
  intros Hd Hp Hq k. subst k.
  destruct (delete_player_dense ps i p Hd Hp) as [Hfirst Hd'].
  assert (Hlt : (S i < length ps)%nat) by (by eapply lookup_lt_Some).
  assert ((delete_player (Z.of_nat i + 1) ps).1 !! i =
          Some (set_id (Z.of_nat i + 1) q)) as Hnext.
  { rewrite Hfirst.
    rewrite lookup_app_r by (rewrite length_take; lia).
    rewrite length_take, Nat.min_l, Nat.sub_diag by lia.
    rewrite list_lookup_fmap, lookup_drop, Nat.add_0_r, Hq. simpl.
    do 2 f_equal. apply (proj1 (dense_ids_lookup ps) Hd) in Hq. lia. }
  split; [done|].
  destruct (delete_player_dense _ i _ Hd' Hnext) as [Hsecond _].
  rewrite Hsecond, Hfirst.
  rewrite take_app_le, take_take, Nat.min_id by (rewrite length_take; lia).
  f_equal.
  rewrite drop_app_ge by (rewrite length_take; lia).
  rewrite length_take, Nat.min_l by lia.
  replace (S i - i)%nat with 1%nat by lia.
  rewrite <- fmap_drop, drop_drop, <- list_fmap_compose.
  replace (S i + 1)%nat with (S (S i)) by lia.
  apply list_fmap_ext. intros j r _. unfold set_id. simpl. f_equal. lia.
Qed.

Lemma delete_player_twice_witness :
  let a := Player 1 "a" "x" "t1" "t1" in
  let b := Player 2 "b" "x" "t2" "t2" in
  let c := Player 3 "c" "x" "t3" "t3" in
  (delete_player 1 [a; b; c]).1 !! 0%nat = Some (set_id 1 b) ∧
  (delete_player 1 (delete_player 1 [a; b; c]).1).1 = [set_id 1 c].
Proof.
  intros a b c.
  apply (delete_player_twice [a; b; c] 0 a b); reflexivity.
Defined.

(** X7: a player deleted from a registry with unique pairs and ids 1..N
    is gone, and registering the same name and class again makes a new
    record at the end: id N, the new time as registered_on. *)
Theorem delete_then_register (data : gmap string string) (t : string)
    (ps : list player) (i : nat) (p : player) :
  unique_pairs ps → dense_ids ps → ps !! i = Some p →
  data !! "name" = Some (name p) → data !! "class" = Some (class p) →
  let rest := (delete_player (Z.of_nat i + 1) ps).1 in
  (∀ q, q ∈ rest → pair_of q ≠ pair_of p) ∧
  (register_player data t rest).1 =
    rest ++ [Player (Z.of_nat (length ps)) (name p) (class p) t t].
Proof.
  intros Hu Hd Hi Hn Hc rest.
  assert (Hlt : (i < length ps)%nat) by (by eapply lookup_lt_Some).
  assert (pair_of <$> rest = delete i (pair_of <$> ps)) as Hpairs.
  { unfold rest, delete_player. rewrite (list_find_dense ps i p Hd Hi). simpl.
    rewrite fmap_reindex_from by done. apply list_fmap_delete. }
  assert (S (length rest) = length ps) as Hlen.
  { rewrite <- (length_fmap pair_of rest), Hpairs, length_delete, length_fmap
      by (rewrite list_lookup_fmap, Hi; eauto). lia. }
  assert (∀ q, q ∈ rest → pair_of q ≠ pair_of p) as Hgone.
  { intros q Hq Heq.
    assert (pair_of p ∈ delete i (pair_of <$> ps)) as Hin.
    { rewrite <- Hpairs, <- Heq. apply list_elem_of_fmap. eauto. }
    apply list_elem_of_lookup in Hin as [j Hj].
    unfold unique_pairs in Hu. rewrite NoDup_alt in Hu.
    assert ((pair_of <$> ps) !! i = Some (pair_of p)) as Hip
      by (by rewrite list_lookup_fmap, Hi).
    destruct (decide (j < i)%nat).
    - rewrite list_lookup_delete_lt in Hj by done.
      specialize (Hu _ _ _ Hj Hip). lia.
    - rewrite list_lookup_delete_ge in Hj by lia.
      specialize (Hu _ _ _ Hj Hip). lia. }
  split; [done|].
  destruct (register_player_cases data t rest)
    as [(j & q & Hj & Hqn & Hqc & _)|[_ ->]].
  - exfalso. apply (Hgone q); [apply list_elem_of_lookup; eauto|].
    rewrite Hn in Hqn. rewrite Hc in Hqc. simpl in Hqn, Hqc.
    unfold pair_of. congruence.
  - rewrite Hn, Hc. simpl. do 3 f_equal. lia.
Qed.

Lemma delete_then_register_witness :
  let a := Player 1 "a" "x" "t1" "t1" in
  let b := Player 2 "b" "x" "t2" "t2" in
  let data : gmap string string := {[ "name" := "a"; "class" := "x" ]} in
  (register_player data "t9" (delete_player 1 [a; b]).1).1 =
    (delete_player 1 [a; b]).1 ++ [Player 2 "a" "x" "t9" "t9"].
Proof.
  intros a b data.
  apply (delete_then_register data "t9" [a; b] 0 a); try reflexivity.
  unfold unique_pairs. simpl. apply NoDup_cons. split.
  - intros Hin. apply list_elem_of_singleton in Hin. discriminate Hin.
  - apply NoDup_singleton.
Defined.

End RegistryMore.

(** ** Runs of generation reports *)

Section ReportFacts.
Import Telemetry Reports.
Context {V : Type}.
Implicit Types (data : gmap string V) (ld : learning_data V).

(** One report appends to the first so many of the four series, one value
    each, and to none after the first missing field. *)
Lemma handle_step data ld :
  ∃ a b c d : list V,
    handle ld data =
      LearningData (generations ld ++ a) (fitness_scores ld ++ b)
                   (dots_eaten ld ++ c) (scores ld ++ d) ∧
    (length d ≤ length c ≤ length b)%nat ∧ (length b ≤ length a ≤ 1)%nat.
Proof.
  unfold handle, save_generation_data, append_field, getitem. simpl.
  destruct ld as [gs fs ds ss]. simpl.
  destruct (data !! "generation") as [g|]; simpl;
    [|exists [], [], [], []; rewrite !app_nil_r; simpl; split; [done|lia]].
  destruct (data !! "fitness") as [f|]; simpl;
    [|exists [g], [], [], []; rewrite !app_nil_r; simpl; split; [done|lia]].
  destruct (data !! "dots_eaten") as [d|]; simpl;
    [|exists [g], [f], [], []; rewrite !app_nil_r; simpl; split; [done|lia]].
  destruct (data !! "score") as [s|]; simpl;
    [|exists [g], [f], [d], []; rewrite !app_nil_r; simpl; split; [done|lia]].
  exists [g], [f], [d], [s]. simpl. split; [done|lia].
Qed.

Lemma run_snoc (reports : list (gmap string V)) data :
  run (reports ++ [data]) = handle (run reports) data.
Proof. unfold run. by rewrite foldl_app. Qed.

Lemma get_learning_curve_draws ld :
  min_length ld ≠ 0%nat →
  get_learning_curve ld =
    Ok (jsonify_plot "success" (curve_of_first (min_length ld) ld)).
Proof.
  intros Hnz. unfold get_learning_curve. fold (min_length ld).
  assert (min_length ld ≤ length (generations ld) ∧
          min_length ld ≤ length (fitness_scores ld) ∧
          min_length ld ≤ length (dots_eaten ld) ∧
          min_length ld ≤ length (scores ld))%nat as (Hg & Hf & Hd & Hs)
    by (unfold min_length; lia).
  destruct (generations ld) as [|g gs] eqn:Hgs; [simpl in Hg; lia|].
  simpl is_empty. cbv iota. rewrite bool_decide_eq_false_2 by done.
  rewrite <- Hgs in *. by rewrite !plt_plot_take by done.
Qed.

Lemma get_learning_curve_no_data ld :
  min_length ld = 0%nat →
  ∃ msg, get_learning_curve ld = Ok (jsonify_message "error" msg 200).
Proof.
  intros Hz. unfold get_learning_curve. fold (min_length ld).
  destruct (generations ld); simpl; [by eexists|].
  rewrite bool_decide_eq_true_2 by done. by eexists.
Qed.

Lemma run_lengths_ordered (reports : list (gmap string V)) :
  (length (scores (run reports)) ≤ length (dots_eaten (run reports)) ∧
   length (dots_eaten (run reports)) ≤ length (fitness_scores (run reports)) ∧
   length (fitness_scores (run reports)) ≤ length (generations (run reports)) ∧
   length (generations (run reports)) ≤ length reports)%nat.
Proof.
  induction reports as [|data reports IH] using rev_ind; [simpl; lia|].
  rewrite run_snoc.
  destruct (handle_step data (run reports)) as (a & b & c & d & -> & H1 & H2).
  simpl. rewrite !length_app. simpl. lia.
Qed.

(** X8: whatever reports came in, complete or not, the scores are the
    shortest of the four series and the generations the longest, no
    longer than the number of reports; the learning curve never raises,
    and it draws as many points as there are scores (an error body when
    there is none). *)
Theorem reports_curve (reports : list (gmap string V)) :
  let ld := run reports in
  (length (scores ld) ≤ length (dots_eaten ld) ∧
   length (dots_eaten ld) ≤ length (fitness_scores ld) ∧
   length (fitness_scores ld) ≤ length (generations ld) ∧
   length (generations ld) ≤ length reports)%nat ∧
  ∃ r, get_learning_curve ld = Ok r ∧
       (scores ld = [] → status r = "error" ∧ plot r = None) ∧
       (scores ld ≠ [] →
        r = jsonify_plot "success" (curve_of_first (length (scores ld)) ld)).
Proof.
  intros ld. pose proof (run_lengths_ordered reports) as Hord. fold ld in Hord.
  assert (min_length ld = length (scores ld)) as Hmin
    by (unfold min_length; lia).
  split; [done|].
  destruct (scores ld) as [|s ss] eqn:Hs.
  - destruct (get_learning_curve_no_data ld) as [msg ->]; [by rewrite Hmin|].
    eexists. split; [done|]. split; done.
  - rewrite get_learning_curve_draws by (rewrite Hmin; done).
    eexists. split; [done|]. split; [done|]. intros _. by rewrite Hmin.
Qed.

(** X9: after reports that all carry the four fields, each series holds
    the reported values of its field, one per report and in the order of
    the reports. *)
Theorem complete_reports_stored (reports : list (gmap string V)) :
  Forall complete reports →
  let ld := run reports in
  generations ld = omap (λ data, data !! "generation") reports ∧
  fitness_scores ld = omap (λ data, data !! "fitness") reports ∧
  dots_eaten ld = omap (λ data, data !! "dots_eaten") reports ∧
  scores ld = omap (λ data, data !! "score") reports ∧
  lengths ld = replicate 4 (length reports).
Proof.
  induction reports as [|data reports IH] using rev_ind; intros Hall ld.
  - done.
  - apply Forall_app in Hall as [Hall Hdata].
    rewrite Forall_singleton in Hdata.
    destruct (IH Hall) as (Hg & Hf & Hd & Hs & Hlen).
    destruct (Hdata "generation") as [g Hgv];
      [apply list_elem_of_lookup; by exists 0%nat|].
    destruct (Hdata "fitness") as [f Hfv];
      [apply list_elem_of_lookup; by exists 1%nat|].
    destruct (Hdata "dots_eaten") as [d Hdv];
      [apply list_elem_of_lookup; by exists 2%nat|].
    destruct (Hdata "score") as [s Hsv];
      [apply list_elem_of_lookup; by exists 3%nat|].
    unfold ld. rewrite run_snoc. unfold handle.
    rewrite (save_generation_data_complete _ _ _ _ _ _ Hgv Hfv Hdv Hsv).
    rewrite !omap_app. simpl. rewrite Hgv, Hfv, Hdv, Hsv. simpl.
    repeat split; [by rewrite Hg|by rewrite Hf|by rewrite Hd|by rewrite Hs|].
    unfold lengths in *. simpl. rewrite !length_app. simpl.
    injection Hlen as -> -> -> ->. rewrite Nat.add_1_r. done.
Qed.

(** X10: a report that lacks one of the four fields raises KeyError for
    the first missing one, in the order generation, fitness, dots_eaten,
    score; the series of the fields before it have grown by one value and
    the others have not changed in length. *)
Theorem failed_report_prefix data ld (j : nat) (key : string) :
  fields !! j = Some key → data !! key = None →
  (∀ i k, (i < j)%nat → fields !! i = Some k → is_Some (data !! k)) →
  (save_generation_data data ld).2 = Raise (KeyError key) ∧
  lengths (save_generation_data data ld).1 =
    (S <$> take j (lengths ld)) ++ drop j (lengths ld).
Proof.
  intros Hkey Hmiss Hbefore.
  unfold save_generation_data, append_field, getitem, lengths. simpl.
  destruct j as [|[|[|[|j]]]]; simpl in Hkey; try done;
    injection Hkey as <-.
  - by rewrite Hmiss.
  - destruct (Hbefore 0%nat "generation") as [g ->]; [lia|done|]. simpl.
    rewrite Hmiss. simpl. by rewrite length_app, Nat.add_1_r.
  - destruct (Hbefore 0%nat "generation") as [g ->]; [lia|done|]. simpl.
    destruct (Hbefore 1%nat "fitness") as [f ->]; [lia|done|]. simpl.
    rewrite Hmiss. simpl. by rewrite !length_app, !Nat.add_1_r.
  - destruct (Hbefore 0%nat "generation") as [g ->]; [lia|done|]. simpl.
    destruct (Hbefore 1%nat "fitness") as [f ->]; [lia|done|]. simpl.
    destruct (Hbefore 2%nat "dots_eaten") as [d ->]; [lia|done|]. simpl.
    rewrite Hmiss. simpl. by rewrite !length_app, !Nat.add_1_r.
Qed.

(** X11: the store is append-only: whatever reports follow, each series
    still starts with the values it held. *)
Theorem reports_append_only (reports later : list (gmap string V)) :
  generations (run reports) `prefix_of` generations (run (reports ++ later)) ∧
  fitness_scores (run reports) `prefix_of`
    fitness_scores (run (reports ++ later)) ∧
  dots_eaten (run reports) `prefix_of` dots_eaten (run (reports ++ later)) ∧
  scores (run reports) `prefix_of` scores (run (reports ++ later)).
Proof.
  induction later as [|data later IH] using rev_ind.
  - by rewrite app_nil_r.
  - rewrite app_assoc, run_snoc.
    destruct (handle_step data (run (reports ++ later)))
      as (a & b & c & d & -> & _). simpl.
    destruct IH as (Hg & Hf & Hd & Hs).
    repeat split; by apply prefix_app_r.
Qed.

(** X12: the series never come back in step: the number of generations
    stored beyond the number of scores never goes down, so once a report
    has failed after its generation was stored, every later learning
    curve pairs generations with the values of later reports. *)
Theorem reports_gap_never_closes (reports later : list (gmap string V)) :
  (length (generations (run reports)) - length (scores (run reports)) ≤
   length (generations (run (reports ++ later))) -
   length (scores (run (reports ++ later))))%nat.
Proof.
  induction later as [|data later IH] using rev_ind.
  - by rewrite app_nil_r.
  - rewrite app_assoc, run_snoc.
    destruct (handle_step data (run (reports ++ later)))
      as (a & b & c & d & -> & H1 & H2). simpl.
    rewrite !length_app. lia.
Qed.

End ReportFacts.

Section ReportRuns.
Import Telemetry Reports.

Lemma complete_reports_stored_witness :
  let r1 : gmap string Z :=
    {[ "generation" := 1; "fitness" := 50; "dots_eaten" := 7; "score" := 70 ]} in
  let r2 : gmap string Z :=
    {[ "generation" := 2; "fitness" := 60; "dots_eaten" := 9; "score" := 90 ]} in
  generations (run [r1; r2]) = [1; 2] ∧ scores (run [r1; r2]) = [70; 90].
Proof.
  intros r1 r2.
  destruct (complete_reports_stored [r1; r2]) as (Hg & _ & _ & Hs & _).
  - repeat constructor; intros key Hkey; unfold fields in Hkey;
      repeat (apply elem_of_cons in Hkey as [->|Hkey]; [by eexists|]);
      by apply elem_of_nil in Hkey.
  - split; [exact Hg|exact Hs].
Defined.

Lemma failed_report_prefix_witness :
  let data : gmap string Z := {[ "generation" := 4; "fitness" := 9 ]} in
  let ld := LearningData [1] [2] [3] [4] in
  (save_generation_data data ld).2 = Raise (KeyError "dots_eaten") ∧
  lengths (save_generation_data data ld).1 = [2; 2; 1; 1]%nat.
Proof.
  intros data ld.
  apply (failed_report_prefix data ld 2 "dots_eaten"); [reflexivity..|].
  intros i k Hi Hk.
  destruct i as [|[|i]]; [| |lia]; simpl in Hk; injection Hk as <-;
    by eexists.
Defined.

End ReportRuns.

(** ** More on the reward plot *)

Section PlotMore.
Import Plot.
Context {num : Type} `{PyNum num}.
Implicit Types (l rewards episodes states : list num).

Lemma length_every_eq l l' (k wait : nat) :
  length l = length l' → length (every k wait l) = length (every k wait l').
Proof.
  revert l' wait. induction l as [|x l IH]; intros [|x' l'] wait Hlen;
    simpl in *; try done.
  destruct wait; simpl; auto.
Qed.

Lemma every_one l : every 1 0 l = l.
Proof. induction l as [|x l IH]; simpl; [done|]. by rewrite IH. Qed.

(** The number of samples, from both sides. *)
Lemma length_every_bounds l (k : nat) :
  (1 ≤ k)%nat → l ≠ [] →
  (1 ≤ length (every k 0 l))%nat ∧
  ((length (every k 0 l) - 1) * k < length l)%nat ∧
  (length l ≤ length (every k 0 l) * k)%nat.
Proof.
  intros Hk Hne.
  assert (1 ≤ length (every k 0 l))%nat as Hpos
    by (destruct l; [done|simpl; lia]).
  split; [done|]. split.
  - destruct (every k 0 l !! (length (every k 0 l) - 1)%nat) as [x|] eqn:Hx.
    + rewrite lookup_every in Hx by done.
      apply lookup_lt_Some in Hx. lia.
    + apply lookup_ge_None in Hx. lia.
  - assert (every k 0 l !! length (every k 0 l) = None) as Hnone
      by (by apply lookup_ge_None).
    rewrite lookup_every in Hnone by done.
    apply lookup_ge_None in Hnone. lia.
Qed.

Lemma getlast_last l x : getlast l = Ok x ↔ last l = Some x.
Proof.
  unfold getlast. destruct (last l); split; intros Heq; by simplify_eq.
Qed.

Lemma getlast_nonempty l : l ≠ [] → ∃ x, getlast l = Ok x.
Proof.
  intros Hne. unfold getlast. destruct (last l) as [x|] eqn:Hlast; [by eexists|].
  by apply last_None in Hlast.
Qed.

Lemma length_nonempty l : (1 ≤ length l)%nat → l ≠ [].
Proof. destruct l; simpl; [lia|done]. Qed.

(** The sampling block on three arrays of one length. *)
Lemma downsample_equal (n : nat) episodes rewards states :
  length episodes = n → length rewards = n → length states = n →
  (500 < n)%nat →
  ∃ s', downsample n (Series episodes rewards states) = Ok s' ∧
        length (rewards_of s') = length (episodes_of s') ∧
        length (states_of s') = length (episodes_of s') ∧
        (length (episodes_of s') ≤ 1000)%nat ∧
        (n < 1000 → n ≤ length (episodes_of s'))%nat.
Proof.
  intros He Hr Hs Hn. unfold downsample. rewrite bool_decide_eq_true_2 by done.
  cbn [episodes_of rewards_of states_of].
  remember (Nat.max 1 (n / 500)) as k eqn:Hkdef.
  assert (1 ≤ k)%nat as Hk by lia.
  assert (episodes ≠ []) as Hne by (apply length_nonempty; lia).
  destruct (length_every_bounds episodes k Hk Hne) as (Hpos & Hlow & Hup).
  assert (length (slice_step k rewards) = length (slice_step k episodes)) as Hlr
    by (apply length_every_eq; congruence).
  assert (length (slice_step k states) = length (slice_step k episodes)) as Hls
    by (apply length_every_eq; congruence).
  fold (slice_step k episodes) in Hpos, Hlow, Hup.
  assert (length (slice_step k episodes) ≤ 999)%nat as Hbound.
  { pose proof (Nat.div_mod_eq n 500) as Hdiv.
    pose proof (Nat.mod_upper_bound n 500 ltac:(lia)) as Hmod.
    destruct (decide (n / 500 ≤ 1)%nat) as [Hsmall|Hbig].
    - assert (k = 1%nat) as Hk1 by lia. clear Hkdef. subst k. lia.
    - assert (k = (n / 500)%nat) as Hkq by lia. clear Hkdef.
      remember (length (slice_step k episodes)) as j. nia. }
  assert (n < 1000 → n ≤ length (slice_step k episodes))%nat as Hall.
  { intros Hlt. assert (k = 1%nat) as Hk1.
    { pose proof (Nat.Div0.div_lt_upper_bound n 500 2). lia. }
    rewrite Hk1. unfold slice_step. rewrite every_one. lia. }
  destruct (getlast_nonempty (slice_step k episodes)) as [e ->];
    [apply length_nonempty; lia|]. simpl.
  destruct (num_ne_int e (Z.of_nat n)).
  - destruct (getlast_nonempty (slice_step k rewards)) as [r ->];
      [apply length_nonempty; lia|]. simpl.
    destruct (getlast_nonempty (slice_step k states)) as [st ->];
      [apply length_nonempty; lia|]. simpl.
    eexists. split; [done|]. simpl. rewrite !length_app. simpl.
    repeat split; lia.
  - eexists. split; [done|]. simpl. repeat split; lia.
Qed.

(** The handler on arrays that come out of the sampling block with one
    length: the only thing left that can raise is the moving average. *)
Lemma generate_learning_plot_sampled (data : gmap string (list num))
    episodes rewards states s' :
  data !! "episodes" = Some episodes → data !! "rewards" = Some rewards →
  data !! "states" = Some states →
  (1 ≤ length episodes)%nat → (1 ≤ length rewards)%nat →
  (1 ≤ length states)%nat →
  downsample
    (Nat.min (length episodes) (Nat.min (length rewards) (length states)))
    (Series episodes rewards states) = Ok s' →
  length (rewards_of s') = length (episodes_of s') →
  length (states_of s') = length (episodes_of s') →
  generate_learning_plot data =
    (moving_avg ← moving_average (rewards_of s');
     Ok (jsonify_plot "success"
           (Chart (Line (episodes_of s') (rewards_of s') "Rewards")
                  (Line (episodes_of s') moving_avg
                        "5-Episode Moving Average")
                  (Line (episodes_of s') (states_of s') "States Learned")))).
Proof.
  intros He Hr Hs Hle Hlr Hls Hdown Heqr Heqs. unfold generate_learning_plot.
  rewrite bool_decide_eq_false_2.
  2:{ intros Hsz. apply map_size_empty_iff in Hsz. by rewrite Hsz in He. }
  rewrite He, Hr, Hs. simpl.
  rewrite !is_empty_false by lia. simpl.
  rewrite bool_decide_eq_false_2 by lia.
  unfold prepare. rewrite Hdown. simpl.
  destruct (moving_average (rewards_of s')) as [avg|e] eqn:Havg; simpl; [|done].
  apply length_moving_average in Havg.
  rewrite (plt_plot_same (episodes_of s') (rewards_of s')) by done. simpl.
  rewrite (plt_plot_same (episodes_of s') avg) by congruence. simpl.
  by rewrite (plt_plot_same (episodes_of s') (states_of s')) by done.
Qed.

Lemma downsample_small (n : nat) (s : series) :
  (n ≤ 500)%nat → downsample n s = Ok s.
Proof. intros Hn. unfold downsample. by rewrite bool_decide_eq_false_2 by lia. Qed.

(** X13: a request whose three arrays are non-empty and of one length
    never ends in the renderer's ValueError or in an IndexError: the
    sampling block succeeds and leaves three arrays of one length (the
    arrays as sent, up to 500 episodes), and the answer is the success
    chart of these arrays and their moving average, unless the moving
    average raises, in which case its exception is what the handler
    raises. *)
Theorem generate_learning_plot_equal_lengths (data : gmap string (list num))
    episodes rewards states :
  data !! "episodes" = Some episodes → data !! "rewards" = Some rewards →
  data !! "states" = Some states →
  (1 ≤ length episodes)%nat →
  length rewards = length episodes → length states = length episodes →
  ∃ s',
    downsample (length episodes) (Series episodes rewards states) = Ok s' ∧
    ((length episodes ≤ 500)%nat → s' = Series episodes rewards states) ∧
    length (rewards_of s') = length (episodes_of s') ∧
    length (states_of s') = length (episodes_of s') ∧
    (∀ moving_avg, moving_average (rewards_of s') = Ok moving_avg →
       length moving_avg = length (episodes_of s')) ∧
    generate_learning_plot data =
      (moving_avg ← moving_average (rewards_of s');
       Ok (jsonify_plot "success"
             (Chart (Line (episodes_of s') (rewards_of s') "Rewards")
                    (Line (episodes_of s') moving_avg
                          "5-Episode Moving Average")
                    (Line (episodes_of s') (states_of s')
                          "States Learned")))).
Proof.
  intros He Hr Hs Hn Hlr Hls.
  assert (∃ s',
            downsample (length episodes) (Series episodes rewards states) =
              Ok s' ∧
            ((length episodes ≤ 500)%nat →
             s' = Series episodes rewards states) ∧
            length (rewards_of s') = length (episodes_of s') ∧
            length (states_of s') = length (episodes_of s'))
    as (s' & Hdown & Hsmall & Heqr & Heqs).
  { destruct (decide (length episodes ≤ 500)%nat) as [Hle|Hgt].
    - exists (Series episodes rewards states).
      rewrite downsample_small by done. simpl. by repeat split.
    - destruct (downsample_equal (length episodes) episodes rewards states)
        as (s' & Hdown & Heqr & Heqs & _); [done..|lia|].
      exists s'. repeat split; [done|lia|done..]. }
  exists s'. repeat split; [done..| |].
  - intros avg Havg. apply length_moving_average in Havg. congruence.
  - apply (generate_learning_plot_sampled data episodes rewards states);
      [done..|lia|lia|lia| |done|done].
    by rewrite Hlr, Hls, !Nat.min_id.
Qed.

(** X14: on three arrays of one length above the threshold the sampling
    block succeeds and leaves three arrays of one length with at most
    1000 elements each, however long they were; below 1000 elements it
    leaves none out, the stride being 1 up to 999. *)
Theorem downsample_point_count (n : nat) episodes rewards states :
  length episodes = n → length rewards = n → length states = n →
  (500 < n)%nat →
  ∃ s', downsample n (Series episodes rewards states) = Ok s' ∧
        length (rewards_of s') = length (episodes_of s') ∧
        length (states_of s') = length (episodes_of s') ∧
        (length (episodes_of s') ≤ 1000)%nat ∧
        ((n < 1000)%nat → (n ≤ length (episodes_of s'))%nat).
Proof.
  intros He Hr Hs Hn.
  destruct (downsample_equal n episodes rewards states)
    as (s' & Hdown & Heqr & Heqs & Hbound & Hall); [done..|].
  exists s'. by repeat split.
Qed.

(** The last sample is the element at the last multiple of the stride. *)
Lemma last_slice_step l (k : nat) :
  (1 ≤ k)%nat → last (slice_step k l) = l !! ((length l - 1) / k * k)%nat.
Proof.
  intros Hk. destruct (decide (l = [])) as [->|Hne]; [done|].
  destruct (length_every_bounds l k Hk Hne) as (Hpos & Hlow & Hup).
  fold (slice_step k l) in Hpos, Hlow, Hup.
  rewrite last_lookup, lookup_slice_step by done.
  f_equal. f_equal.
  remember (length (slice_step k l)) as j.
  apply (Nat.div_unique _ _ _ (length l - 1 - k * pred j)); nia.
Qed.

(** X15: above the threshold the last reward and the last state count
    that are drawn are the ones at the last multiple of the stride, with
    or without the appended point; they are the last ones of the request
    when the stride divides the number of elements less one. *)
Theorem downsample_last_drawn (m : nat) (s s' : series) :
  (500 < m)%nat → downsample m s = Ok s' →
  let k := Nat.max 1 (m / 500) in
  last (rewards_of s') =
    rewards_of s !! ((length (rewards_of s) - 1) / k * k)%nat ∧
  last (states_of s') =
    states_of s !! ((length (states_of s) - 1) / k * k)%nat ∧
  (((length (rewards_of s) - 1) `mod` k = 0)%nat →
   last (rewards_of s') = last (rewards_of s)).
Proof.
  intros Hm Hdown k. assert (1 ≤ k)%nat as Hk by (unfold k; lia).
  assert (last (rewards_of s') = last (slice_step k (rewards_of s)) ∧
          last (states_of s') = last (slice_step k (states_of s)))
    as [Hr Hs].
  { revert Hdown. unfold downsample. rewrite bool_decide_eq_true_2 by done.
    fold k.
    destruct (getlast (slice_step k (episodes_of s))) as [e|]; simpl; [|done].
    destruct (num_ne_int e (Z.of_nat m)).
    - destruct (getlast (slice_step k (rewards_of s))) as [r0|] eqn:Hr0;
        simpl; [|done].
      destruct (getlast (slice_step k (states_of s))) as [s0|] eqn:Hs0;
        simpl; [|done].
      intros [= <-]. simpl. rewrite !last_snoc.
      apply getlast_last in Hr0, Hs0. by rewrite Hr0, Hs0.
    - by intros [= <-]. }
  rewrite Hr, Hs, !last_slice_step by done.
  split; [done|]. split; [done|].
  intros Hdiv. rewrite last_lookup. f_equal.
  pose proof (Nat.div_mod_eq (length (rewards_of s) - 1) k). lia.
Qed.

(** X16: at a valid index the loop sums [end_idx - start_idx] rewards,
    the divisor it then uses: between one and five, five away from the
    ends, and near an end the rewards from index [i - 2] (or the first)
    to [i + 2] (or the last).  The divisor is never zero. *)
Theorem window_length rewards (i : nat) :
  (i < length rewards)%nat →
  let window := slice (start_idx i) (end_idx rewards i) rewards in
  Z.of_nat (length window) = end_idx rewards i - start_idx i ∧
  length window = (Nat.min (length rewards) (i + 3) - (i - 2))%nat ∧
  (1 ≤ length window ≤ 5)%nat ∧
  ((2 ≤ i)%nat → (i + 3 ≤ length rewards)%nat → length window = 5%nat).
Proof.
  intros Hi window. unfold window, slice, start_idx, end_idx.
  change (window_size `div` 2) with 2.
  rewrite length_take, length_drop. lia.
Qed.

(** X17: a request that lacks one of the three arrays, or has it empty,
    is answered with an error body and no plot, without an exception,
    whatever the other arrays are. *)
Theorem generate_learning_plot_no_array (data : gmap string (list num))
    (key : string) :
  key ∈ ["episodes"; "rewards"; "states"] →
  default [] (data !! key) = [] →
  ∃ msg, generate_learning_plot data = Ok (Response "error" (Some msg) None 200) ∧
         (msg = "No data provided" ↔ data = ∅).
Proof.
  intros Hkey Hmiss. unfold generate_learning_plot.
  case_bool_decide as Hsize.
  - apply map_size_empty_iff in Hsize. eexists. split; [done|]. done.
  - assert (data ≠ ∅) as Hne by (by rewrite <- map_size_empty_iff).
    exists "Missing required data".
    split; [|split; [discriminate|done]].
    repeat (apply elem_of_cons in Hkey as [->|Hkey];
            [rewrite Hmiss; simpl; by rewrite ?orb_true_r|]).
    by apply elem_of_nil in Hkey.
Qed.

End PlotMore.

(** ** The spreadsheet export *)

Section ExcelFacts.
Import Registry Excel.

Lemma run_keeps_invariant (rs : list request) :
  unique_pairs (run rs) ∧ dense_ids (run rs).
Proof.
  unfold run. induction rs as [|r rs IH] using rev_ind.
  - split; [apply NoDup_nil_2|apply dense_ids_nil].
  - rewrite foldl_app. simpl. by apply handle_invariant.
Qed.

Lemma export_file stamp (ps : list player) :
  ps ≠ [] →
  export_players_excel stamp ps =
    inr ("pacman_players_" +:+ lower stamp +:+ ".xlsx",
         Sheet ["SN"; "Name"; "Class"; "Registration Time"; "Last Login Time"]
               [18; 18; 18; 25; 25] (row_of <$> ps)).
Proof. intros Hne. unfold export_players_excel. by destruct ps. Qed.

(** X19: the export of an empty registry is the error body and never a
    file; of any other registry it is a file whose sheet has the five
    renamed columns, width 25 for the two time columns and 18 for the
    others, and under the header one row per player, in registry order,
    with the player's id, name, class and two timestamps. *)
Theorem export_players_excel_sheet (stamp : string) (ps : list player) :
  (ps = [] →
   export_players_excel stamp ps =
     inl (Response "error" (Some "No player data available") None 200)) ∧
  (ps ≠ [] →
   ∃ filename sh,
     export_players_excel stamp ps = inr (filename, sh) ∧
     header sh =
       ["SN"; "Name"; "Class"; "Registration Time"; "Last Login Time"] ∧
     widths sh = [18; 18; 18; 25; 25] ∧
     length (body sh) = length ps ∧
     ∀ i p, ps !! i = Some p →
       body sh !! i =
         Some [CInt (id p); CStr (name p); CStr (class p);
               CStr (registered_on p); CStr (last_login p)]).
Proof.
  split.
  - by intros ->.
  - intros Hne. rewrite (export_file stamp ps Hne). eexists _, _.
    split; [done|]. simpl. repeat split; [by rewrite length_fmap|].
    intros i p Hi. by rewrite list_lookup_fmap, Hi.
Qed.

(** X20: whatever register and delete requests were handled before, an
    export that gives a file has the serial numbers 1, 2, ..., N in its SN
    column, top to bottom, and no two rows with the same name and class. *)
Theorem export_after_run (rs : list request) (stamp : string) :
  run rs ≠ [] →
  ∃ filename sh,
    export_players_excel stamp (run rs) = inr (filename, sh) ∧
    first_column (body sh) =
      (λ k, Some (CInt (Z.of_nat k))) <$> seq 1 (length (run rs)) ∧
    NoDup ((λ row : list cell, (row !! 1%nat, row !! 2%nat)) <$> body sh).
Proof.
  intros Hne. destruct (run_keeps_invariant rs) as [Hu Hd].
  rewrite (export_file stamp _ Hne). eexists _, _. split; [done|]. simpl.
  split.
  - unfold first_column. rewrite <- list_fmap_compose.
    change ((λ row : list cell, row !! 0%nat) ∘ row_of)
      with ((λ n, Some (CInt n)) ∘ id).
    rewrite list_fmap_compose, Hd, <- !list_fmap_compose. done.
  - rewrite <- list_fmap_compose.
    change ((λ row : list cell, (row !! 1%nat, row !! 2%nat)) ∘ row_of)
      with ((λ nc : string * string, (Some (CStr nc.1), Some (CStr nc.2)))
              ∘ pair_of).
    rewrite list_fmap_compose. apply NoDup_fmap_2; [|done].
    intros [n1 c1] [n2 c2] Heq. simpl in Heq. by simplify_eq.
Qed.

Lemma export_after_run_witness :
  let rs := [RegisterPlayer {[ "name" := "a" ]} "t1";
             RegisterPlayer {[ "name" := "b" ]} "t2";
             DeletePlayer 1] in
  ∃ filename sh,
    export_players_excel "20260102_0304PM" (run rs) = inr (filename, sh) ∧
    first_column (body sh) = [Some (CInt 1)].
Proof.
  intros rs.
  destruct (export_after_run rs "20260102_0304PM") as (f & sh & He & Hc & _);
    [discriminate|].
  exists f, sh. split; [exact He|exact Hc].
Defined.

Lemma is_upper_lower_char c : is_upper (lower_char c) = false.
Proof. destruct c as [[] [] [] [] [] [] [] []]; reflexivity. Qed.

Lemma has_upper_lower s : has_upper (lower s) = false.
Proof.
  induction s as [|c s IH]; simpl; [done|].
  by rewrite is_upper_lower_char, IH.
Qed.

Lemma has_upper_app s1 s2 :
  has_upper (s1 +:+ s2) = has_upper s1 || has_upper s2.
Proof.
  induction s1 as [|c s1 IH]; simpl; [done|].
  by rewrite IH, orb_assoc.
Qed.

(** X22: the download name is pacman_players_, the time stamp in lower
    case and .xlsx: it has no upper-case ASCII letter, so the AM/PM mark
    of the stamp is written am or pm. *)
Theorem export_filename_lower_case (stamp : string) (ps : list player)
    (filename : string) (sh : sheet) :
  export_players_excel stamp ps = inr (filename, sh) →
  filename = "pacman_players_" +:+ lower stamp +:+ ".xlsx" ∧
  has_upper filename = false.
Proof.
  unfold export_players_excel. destruct ps as [|p ps]; [done|]. simpl.
  intros [= <- _]. split; [done|].
  change (has_upper ("pacman_players_" +:+ lower stamp +:+ ".xlsx") = false).
  by rewrite !has_upper_app, has_upper_lower.
Qed.

Lemma export_filename_lower_case_witness :
  has_upper "pacman_players_20260102_030405pm.xlsx" = false.
Proof.
  exact (proj2 (export_filename_lower_case "20260102_030405PM"
                  [Player 1 "a" "x" "t1" "t1"] _ _ eq_refl)).
Defined.

End ExcelFacts.

(** ** The cache busters of the game page *)

Section GameFacts.
Import Game.

Lemma cache_busters_lookup (t1 t2 t3 t4 t5 : Z) (key : string) (v : Z) :
  cache_busters t1 t2 t3 t4 t5 !! key = Some v ↔
  (key = "style" ∧ v = t1 + 1) ∨ (key = "constants" ∧ v = t2 + 2) ∨
  (key = "manual_game" ∧ v = t3 + 3) ∨ (key = "ai_game" ∧ v = t4 + 4) ∨
  (key = "main" ∧ v = t5 + 5).
Proof.
  unfold cache_busters.
  rewrite !lookup_insert_Some, lookup_singleton_Some.
  intuition (subst; first [done|congruence]).
Qed.

(** X23: when the clock does not go back between the five readings, the
    five static files get five different cache busters, in increasing
    order of the files. *)
Theorem cache_busters_distinct (t1 t2 t3 t4 t5 : Z) (k k' : string) (v v' : Z) :
  t1 ≤ t2 → t2 ≤ t3 → t3 ≤ t4 → t4 ≤ t5 →
  cache_busters t1 t2 t3 t4 t5 !! k = Some v →
  cache_busters t1 t2 t3 t4 t5 !! k' = Some v' →
  k ≠ k' → v ≠ v'.
Proof.
  intros H12 H23 H34 H45 Hk Hk' Hne.
  apply cache_busters_lookup in Hk, Hk'.
  destruct Hk as [[-> ->]|[[-> ->]|[[-> ->]|[[-> ->]|[-> ->]]]]];
    destruct Hk' as [[-> ->]|[[-> ->]|[[-> ->]|[[-> ->]|[-> ->]]]]];
    first [done|lia].
Qed.

Lemma cache_busters_distinct_witness : 100 + 1 ≠ 101 + 5.
Proof.
  apply (cache_busters_distinct 100 100 100 101 101 "style" "main");
    first [lia|reflexivity|discriminate].
Defined.

End GameFacts.

(** ** The reward plot on sample requests *)

Section PlotRuns.
Import Plot Samples MoreSamples.

Lemma generate_learning_plot_equal_lengths_witness :
  generate_learning_plot even_request =
    Ok (jsonify_plot "success"
          (Chart (Line (ints 1 3) (ints 10 3) "Rewards")
                 (Line (ints 1 3)
                       [IntQuotient 33 3; IntQuotient 33 3; IntQuotient 33 3]
                       "5-Episode Moving Average")
                 (Line (ints 1 3) (ints 20 3) "States Learned"))).
Proof.
  destruct (generate_learning_plot_equal_lengths (H := int_num) even_request
              (ints 1 3) (ints 10 3) (ints 20 3))
    as (s' & _ & Hsmall & _ & _ & _ & Hplot).
  1-3: reflexivity.
  1: simpl; lia.
  1-2: reflexivity.
  rewrite Hsmall in Hplot by (simpl; lia). exact Hplot.
Defined.

Lemma downsample_point_count_witness :
  ∃ s', downsample 1000 (Series (ints 1 1000) (ints 1001 1000)
                                (ints 2001 1000)) = Ok s' ∧
        (length (episodes_of s') ≤ 1000)%nat.
Proof.
  destruct (downsample_point_count (H := int_num) 1000
              (ints 1 1000) (ints 1001 1000) (ints 2001 1000))
    as (s' & Hdown & _ & _ & Hbound & _).
  1-3: unfold ints; by rewrite length_fmap, length_seq.
  1: lia.
  exists s'. split; [exact Hdown|exact Hbound].
Defined.

Lemma downsample_last_drawn_witness :
  ∃ s', downsample 1000 (Series (ints 1 1000) (ints 1001 1000)
                                (ints 2001 1000)) = Ok s' ∧
        last (rewards_of s') = Some 1999.
Proof.
  destruct (downsample 1000 (Series (ints 1 1000) (ints 1001 1000)
                                    (ints 2001 1000)))
    as [s'|e] eqn:Hdown; [|vm_compute in Hdown; discriminate Hdown].
  exists s'. split; [reflexivity|].
  destruct (downsample_last_drawn 1000 _ s' ltac:(lia) Hdown) as [Hr _].
  rewrite Hr. reflexivity.
Defined.

Lemma window_length_witness :
  length (slice (start_idx 0) (end_idx (ints 1 10) 0) (ints 1 10)) = 3%nat.
Proof.
  destruct (window_length (ints 1 10) 0) as (_ & Hlen & _); [simpl; lia|].
  exact Hlen.
Defined.

Lemma generate_learning_plot_no_array_witness :
  ∃ msg, generate_learning_plot (HNum := int_num) {[ "episodes" := ints 1 3 ]} =
           Ok (Response "error" (Some msg) None 200).
Proof.
  destruct (generate_learning_plot_no_array (H := int_num)
              {[ "episodes" := ints 1 3 ]} "rewards") as (msg & Hplot & _).
  - apply list_elem_of_lookup. by exists 1%nat.
  - reflexivity.
  - by exists msg.
Defined.

End PlotRuns.
